(** * LegalMind: clause analysis pipeline, warranty heuristics and speech endpoint

    A shallow embedding of
      - backend/analyzer.py        (module [Analyzer]),
      - backend/logic/grantie.py   (module [Grantie]),
      - backend/logic/tts.py       (module [Tts]),
      - main.py, route /speak/     (module [Main]),
      - frontend/app.py, play_audio (module [Frontend]),
    followed by the properties established about them.

    Modelling conventions.
      - A Python [str] is a [string]; every character is read as the Unicode
        code point of the same number (0..255), so [len], slicing, [in],
        [lower] and [strip] are the code-point operations of Python on that
        range.
      - A Python exception is a class tag with the text of [str(e)]; a call
        that may raise returns a [Result].
      - The outside world (configuration read at import time, the temporary
        file, python-docx, the completion service, the speech service) is an
        [Env] of oracles.  Every request sent to a service is appended to a
        log that is threaded through the code; an oracle answers from the log
        so far and the request, so two identical requests may be answered
        differently.
      - The per-clause dict, whose keys are fixed, is a record of options:
        [None] is a key that is absent, and [d.get(k, v)] is [default v].
        The values have the types the code gives them (text, bool).
      - Logging and the removal of the temporary file do not influence any
        returned value and are left out. *)

From Stdlib Require Import Ascii String NArith QArith DecimalString.
From stdpp Require Import base list strings.

Local Open Scope N_scope.

(** ** Python string primitives *)
Module PyStr.

Definition nl : string := String "010"%char "".

Definition len (s : string) : nat := String.length s.

(** [c.lower()] for a code point below 256: the letters A-Z and the
    Latin-1 capitals U+00C0..U+00DE (without the multiplication sign
    U+00D7) move up by 32; everything else is unchanged. *)
Definition lower_char (c : ascii) : ascii :=
  let n := N_of_ascii c in
  if ((65 <=? n) && (n <=? 90)) || ((192 <=? n) && (n <=? 222) && negb (n =? 215))
  then ascii_of_N (n + 32) else c.

Fixpoint lower (s : string) : string :=
  match s with
  | EmptyString => EmptyString
  | String c s' => String (lower_char c) (lower s')
  end.

(** [c.isspace()] for a code point below 256. *)
Definition isspace (c : ascii) : bool :=
  let n := N_of_ascii c in
  ((9 <=? n) && (n <=? 13)) || ((28 <=? n) && (n <=? 32)) || (n =? 133) || (n =? 160).

Fixpoint lstrip (s : string) : string :=
  match s with
  | EmptyString => EmptyString
  | String c s' => if isspace c then lstrip s' else s
  end.

Definition rstrip (s : string) : string := String.rev (lstrip (String.rev s)).

Definition strip (s : string) : string := rstrip (lstrip s).

(** [sub in s] *)
Fixpoint contains (sub s : string) : bool :=
  String.prefix sub s ||
  match s with
  | EmptyString => false
  | String _ s' => contains sub s'
  end.

(** [any(k in s for k in ks)] *)
Definition any_in (ks : list string) (s : string) : bool :=
  existsb (fun k => contains k s) ks.

(** [s[:n]] *)
Definition slice_to (n : nat) (s : string) : string := String.substring 0 n s.

(** Truth value of a string: [not s] holds for the empty string only. *)
Definition truthy (s : string) : bool :=
  match s with EmptyString => false | String _ _ => true end.

End PyStr.

Local Close Scope N_scope.

(** ** Exceptions, results and the world *)

Inductive ExnClass :=
  | AuthenticationError   (* openai.error.AuthenticationError *)
  | RateLimitError        (* openai.error.RateLimitError *)
  | APIError              (* openai.error.APIError *)
  | ValueError
  | OtherException.       (* any other subclass of Exception, and Exception itself *)

Record Exn := MkExn { exn_class : ExnClass; exn_str : string }.

Inductive Result (A : Type) :=
  | Ok (a : A)
  | Raise (e : Exn).
Arguments Ok {A} a.
Arguments Raise {A} e.

(** A request to the completion service (openai.ChatCompletion.create). *)
Record Message := MkMessage { role : string; content : string }.

Record ChatRequest := MkChatRequest {
  model : string;
  messages : list Message;
  temperature : Q;
  max_tokens : nat
}.

(** A request to the speech service (requests.post in tts.py). *)
Record VoiceSettings := MkVoiceSettings { stability : Q; similarity_boost : Q }.

Record SpeechPayload := MkSpeechPayload { text : string; voice_settings : VoiceSettings }.

Record SpeechRequest := MkSpeechRequest {
  url : string;
  headers : list (string * string);
  json : SpeechPayload
}.

Record HttpResponse := MkHttpResponse {
  status_code : nat;
  response_content : list Byte.byte;
  response_text : string
}.

Inductive Outbound :=
  | ChatCall (r : ChatRequest)
  | SpeechCall (r : SpeechRequest).

Record Env := MkEnv {
  (** openai.api_key, from os.getenv("OPENAI_API_KEY") *)
  OPENAI_API_KEY : option string;
  (** ELEVENLABS_API_KEY, from os.getenv("ELEVENLABS_API_KEY") *)
  ELEVENLABS_API_KEY : option string;
  (** tempfile.NamedTemporaryFile(delete=False, suffix=...): writes the
      content and gives the name of the file *)
  NamedTemporaryFile : string -> list Byte.byte -> Result string;
  (** docx.Document(path): the [text] of each paragraph, in order *)
  Document : string -> Result (list string);
  (** openai.ChatCompletion.create(...).choices[0].message.content *)
  ChatCompletion_create : list Outbound -> ChatRequest -> Result string;
  (** requests.post(url, json=..., headers=...) *)
  requests_post : list Outbound -> SpeechRequest -> Result HttpResponse;
  (** open(path, "wb").write(content) *)
  write_file : string -> list Byte.byte -> Result unit
}.

(** [not key]: a key is usable when it is set and not empty. *)
Definition configured (key : option string) : bool :=
  match key with
  | Some k => PyStr.truthy k
  | None => false
  end.

(** ** The monad of code that talks to services and may raise *)

Definition M (A : Type) : Type := list Outbound -> Result A * list Outbound.

Definition ret {A} (a : A) : M A := fun log => (Ok a, log).

Definition bind {A B} (m : M A) (f : A -> M B) : M B :=
  fun log =>
    match m log with
    | (Ok a, log') => f a log'
    | (Raise e, log') => (Raise e, log')
    end.

Definition raise {A} (e : Exn) : M A := fun log => (Raise e, log).

Definition lift {A} (r : Result A) : M A := fun log => (r, log).

(** try: m / except Exception as e: h e *)
Definition try_except {A} (m : M A) (h : Exn -> M A) : M A :=
  fun log =>
    match m log with
    | (Ok a, log') => (Ok a, log')
    | (Raise e, log') => h e log'
    end.

Definition chat (env : Env) (req : ChatRequest) : M string :=
  fun log => (ChatCompletion_create env log req, log ++ [ChatCall req]).

Definition post (env : Env) (req : SpeechRequest) : M HttpResponse :=
  fun log => (requests_post env log req, log ++ [SpeechCall req]).

Declare Scope py_scope.
Delimit Scope py_scope with py.
Notation "x <- m ;; k" := (bind m (fun x => k))
  (at level 100, m at next level, right associativity) : py_scope.

(** The value a computation returns and the requests it has sent. *)
Definition result_of {A} (m : M A) (log : list Outbound) : Result A := fst (m log).
Definition log_of {A} (m : M A) (log : list Outbound) : list Outbound := snd (m log).

Local Open Scope py_scope.

(** ** backend/analyzer.py *)
Module Analyzer.
Import PyStr.

(** The per-clause result dict.  A key that is absent from the dict is
    [None]; [grantie_analysis] is the only key the code adds
    conditionally. *)
Record ClauseDict := MkClauseDict {
  clause : option string;
  analysis : option string;
  has_warranty_terms : option bool;
  grantie_analysis : option string
}.

Definition extract_clauses_from_docx (env : Env) (file_path : string)
  : Result (list string) :=
  match Document env file_path with
  | Ok paragraphs =>
      Ok (map strip (List.filter (fun para => truthy (strip para)) paragraphs))
  | Raise e =>
      Raise (MkExn OtherException ("Failed to read document: " +:+ exn_str e))
  end.

Definition clause_prompt (clause : string) : string :=
  "Please explain the meaning of this legal clause in simple language:"
    +:+ nl +:+ nl +:+ clause.

Definition clause_request (clause : string) : ChatRequest :=
  {| model := "gpt-3.5-turbo";
     messages := [MkMessage "user" (clause_prompt clause)];
     temperature := 3 # 10;
     max_tokens := 300 |}.

(** The four except branches of analyze_clause_with_openai, in order. *)
Definition clause_error (e : Exn) : string :=
  match exn_class e with
  | AuthenticationError =>
      "Error: Invalid OpenAI API key. Please check your .env file."
  | RateLimitError =>
      "Error: OpenAI rate limit exceeded. Please try again later or check your account balance."
  | APIError => "Error: OpenAI API error - " +:+ exn_str e
  | _ => "Error analyzing clause: " +:+ exn_str e
  end.

Definition analyze_clause_with_openai (env : Env) (clause : string) : M string :=
  if negb (configured (OPENAI_API_KEY env)) then
    raise (MkExn OtherException
             "OpenAI API key not configured. Please check your .env file.")
  else
    try_except
      (response <- chat env (clause_request clause);;
       ret (strip response))
      (fun e => ret (clause_error e)).

Definition grantie_prompt (clause : string) : string :=
  nl +:+
  "    Analyze this legal clause specifically for warranties, guarantees, and related terms:" +:+ nl +:+
  "    " +:+ nl +:+
  "    " +:+ clause +:+ nl +:+
  "    " +:+ nl +:+
  "    Please identify:" +:+ nl +:+
  "    1. Any warranties mentioned (express or implied)" +:+ nl +:+
  "    2. Any guarantees provided" +:+ nl +:+
  "    3. Limitations or disclaimers" +:+ nl +:+
  "    4. Risk level for the recipient (Low/Medium/High)" +:+ nl +:+
  "    5. Key terms to watch out for" +:+ nl +:+
  "    " +:+ nl +:+
  "    Provide a clear, simple explanation suitable for non-lawyers." +:+ nl +:+
  "    ".

Definition grantie_request (clause : string) : ChatRequest :=
  {| model := "gpt-3.5-turbo";
     messages := [MkMessage "user" (grantie_prompt clause)];
     temperature := 3 # 10;
     max_tokens := 350 |}.

Definition grantie_error (e : Exn) : string :=
  match exn_class e with
  | AuthenticationError => "Error: Invalid OpenAI API key for Grantie analysis."
  | RateLimitError => "Error: OpenAI rate limit exceeded for Grantie analysis."
  | _ => "Error analyzing clause for Grantie: " +:+ exn_str e
  end.

Definition analyze_clause_for_grantie (env : Env) (clause : string) : M string :=
  if negb (configured (OPENAI_API_KEY env)) then
    ret "Error: OpenAI API key not configured."
  else
    try_except
      (response <- chat env (grantie_request clause);;
       ret (strip response))
      (fun e => ret (grantie_error e)).

Definition warranty_keywords : list string :=
  ["warrant"; "guarantee"; "assure"; "promise"; "liability"; "disclaim"; "as-is"].

(** Lines 148-149: any(keyword in clause.lower() for keyword in warranty_keywords) *)
Definition detect_warranty_terms (clause : string) : bool :=
  any_in warranty_keywords (lower clause).

(** result["grantie_analysis"] = g *)
Definition set_grantie_analysis (result : ClauseDict) (g : string) : ClauseDict :=
  {| clause := clause result;
     analysis := analysis result;
     has_warranty_terms := has_warranty_terms result;
     grantie_analysis := Some g |}.

(** The body of the for loop of analyze_uploaded_file, run over the
    clauses that are left, with the list [results] built so far. *)
Fixpoint analyze_loop (env : Env) (clauses : list string)
    (results : list ClauseDict) : M (list ClauseDict) :=
  match clauses with
  | [] => ret results
  | clause :: rest =>
      if (len (strip clause) <? 10)%nat then analyze_loop env rest results
      else
        analysis <- analyze_clause_with_openai env clause;;
        let has_warranty_terms := detect_warranty_terms clause in
        let result :=
          {| clause := Some clause;
             analysis := Some analysis;
             has_warranty_terms := Some has_warranty_terms;
             grantie_analysis := None |} in
        result <-
          (if has_warranty_terms then
             g <- analyze_clause_for_grantie env clause;;
             ret (set_grantie_analysis result g)
           else ret result);;
        analyze_loop env rest (results ++ [result])
  end.

Definition error_result (e : Exn) : ClauseDict :=
  {| clause := Some "Error processing document";
     analysis := Some ("Failed to analyze document: " +:+ exn_str e);
     has_warranty_terms := Some false;
     grantie_analysis := None |}.

Definition analyze_uploaded_file (env : Env) (filename : string)
    (file_content : list Byte.byte) : M (list ClauseDict) :=
  try_except
    (tmp_path <- lift (NamedTemporaryFile env ".docx" file_content);;
     clauses <- lift (extract_clauses_from_docx env tmp_path);;
     match clauses with
     | [] => raise (MkExn OtherException "No readable content found in the document")
     | _ => analyze_loop env clauses []
     end)
    (fun e => ret [error_result e]).

(** The value under "warranty_percentage": the int 0, or the float
    round((numerator / denominator) * 100, digits), kept as the integers
    it is computed from. *)
Inductive Percentage :=
  | PercentZero
  | PercentRounded (numerator denominator digits : nat).

Record Statistics := MkStatistics {
  total_clauses : nat;
  warranty_related_clauses : nat;
  warranty_percentage : Percentage
}.

Definition get_document_statistics (clauses_result : list ClauseDict) : Statistics :=
  let total_clauses := length clauses_result in
  let warranty_clauses :=
    length (List.filter (fun clause => default false (has_warranty_terms clause))
              clauses_result) in
  {| total_clauses := total_clauses;
     warranty_related_clauses := warranty_clauses;
     warranty_percentage :=
       if (0 <? total_clauses)%nat
       then PercentRounded warranty_clauses total_clauses 2
       else PercentZero |}.

End Analyzer.

(** ** backend/logic/grantie.py *)
Module Grantie.
Import PyStr.

Record Summary := MkSummary {
  has_warranties : bool;
  has_guarantees : bool;
  risk_level : string
}.

Record WarrantyAnalysis := MkWarrantyAnalysis {
  analysis : string;
  summary : Summary
}.

Definition document_prompt (text : string) : string :=
  nl +:+
  "    Analyze the following legal document text for warranties, guarantees, and related terms:" +:+ nl +:+
  nl +:+
  "    " +:+ text +:+ nl +:+
  nl +:+
  "    Please provide:" +:+ nl +:+
  "    1. Summary of all warranties found" +:+ nl +:+
  "    2. Summary of all guarantees found" +:+ nl +:+
  "    3. Any disclaimers or limitations" +:+ nl +:+
  "    4. Overall risk assessment (High/Medium/Low)" +:+ nl +:+
  "    5. Key recommendations for the document recipient" +:+ nl +:+
  nl +:+
  "    Format your response as a detailed analysis." +:+ nl +:+
  "    ".

Definition document_request (text : string) : ChatRequest :=
  {| model := "gpt-3.5-turbo";
     messages := [MkMessage "user" (document_prompt text)];
     temperature := 3 # 10;
     max_tokens := 500 |}.

Definition high_risk_keywords : list string :=
  ["disclaim"; "as-is"; "no warranty"; "liability"; "limitation"].

Definition medium_risk_keywords : list string :=
  ["limited warranty"; "conditional"; "subject to"].

(** Lines 50-54: the risk tier computed from the text. *)
Definition assess_risk (text : string) : string :=
  if any_in high_risk_keywords (lower text) then "High"
  else if any_in medium_risk_keywords (lower text) then "Medium"
  else "Low".

Definition analyze_warranties_and_guarantees (env : Env) (text : string)
  : M WarrantyAnalysis :=
  try_except
    (response <- chat env (document_request text);;
     let analysis_text := strip response in
     let has_warranties := any_in ["warrant"; "warranty"; "guaranteed"] (lower text) in
     let has_guarantees := any_in ["guarantee"; "assure"; "promise"] (lower text) in
     let risk_level := assess_risk text in
     ret {| analysis := analysis_text;
            summary := {| has_warranties := has_warranties;
                          has_guarantees := has_guarantees;
                          risk_level := risk_level |} |})
    (fun e =>
       ret {| analysis := "Error analyzing warranties and guarantees: " +:+ exn_str e;
              summary := {| has_warranties := false;
                            has_guarantees := false;
                            risk_level := "Unknown" |} |}).

Record ComplianceReport := MkComplianceReport {
  compliance_issues : list string;
  recommendations : list string;
  total_issues : nat
}.

Definition vague_issue : string :=
  "Vague warranty terms found - consider more specific language".
Definition notice_issue : string :=
  "Warranty disclaimer may lack proper notice requirements".
Definition time_limit_recommendation : string :=
  "Consider adding specific time limits for warranty coverage".
Definition consistency_recommendation : string :=
  "Multiple warranty clauses found - ensure consistency across all terms".
Definition generic_recommendation : string :=
  "Consider adding clear warranty terms for transparency".

(** clause.get("has_warranty_terms", False) *)
Definition flagged (clause : Analyzer.ClauseDict) : bool :=
  default false (Analyzer.has_warranty_terms clause).

(** One turn of the for loop over warranty_clauses, on the pair
    (compliance_issues, recommendations). *)
Definition check_clause (acc : list string * list string)
    (clause : Analyzer.ClauseDict) : list string * list string :=
  let '(compliance_issues, recommendations) := acc in
  let clause_text := lower (default "" (Analyzer.clause clause)) in
  let compliance_issues :=
    if any_in ["reasonable"; "satisfactory"; "appropriate"] clause_text
    then compliance_issues ++ [vague_issue] else compliance_issues in
  let compliance_issues :=
    if contains "disclaim" clause_text && negb (contains "notice" clause_text)
    then compliance_issues ++ [notice_issue] else compliance_issues in
  let recommendations :=
    if contains "warranty" clause_text
       && negb (any_in ["days"; "months"; "years"; "period"] clause_text)
    then recommendations ++ [time_limit_recommendation] else recommendations in
  (compliance_issues, recommendations).

Definition check_warranty_compliance (clauses : list Analyzer.ClauseDict)
  : ComplianceReport :=
  let warranty_clauses := List.filter flagged clauses in
  match warranty_clauses with
  | [] =>
      {| compliance_issues := [];
         recommendations := [generic_recommendation];
         total_issues := 0 |}
  | _ =>
      let '(compliance_issues, recommendations) :=
        fold_left check_clause warranty_clauses ([], []) in
      let recommendations :=
        if (3 <? length warranty_clauses)%nat
        then recommendations ++ [consistency_recommendation]
        else recommendations in
      {| compliance_issues := compliance_issues;
         recommendations := recommendations;
         total_issues := length compliance_issues |}
  end.

End Grantie.

(** ** backend/logic/tts.py *)
Module Tts.
Import PyStr.

Definition DEFAULT_VOICE_ID : string := "Rachel".

(** str(n) for a status code *)
Definition str_of_nat (n : nat) : string :=
  DecimalString.NilEmpty.string_of_uint (Nat.to_uint n).

Definition speech_request (key text : string) : SpeechRequest :=
  {| url := "https://api.elevenlabs.io/v1/text-to-speech/" +:+ DEFAULT_VOICE_ID;
     headers := [("Accept", "audio/mpeg");
                 ("Content-Type", "application/json");
                 ("xi-api-key", key)];
     json := {| text := text;
                voice_settings := {| stability := 1 # 2;
                                     similarity_boost := 3 # 4 |} |} |}.

Definition text_to_speech (env : Env) (text output_file : string) : M string :=
  match ELEVENLABS_API_KEY env with
  | Some key =>
      if truthy key then
        response <- post env (speech_request key text);;
        if (status_code response =? 200)%nat then
          _ <- lift (write_file env output_file (response_content response));;
          ret output_file
        else
          raise (MkExn OtherException
                   ("TTS failed: " +:+ str_of_nat (status_code response)
                      +:+ " - " +:+ response_text response))
      else raise (MkExn ValueError "Missing ELEVENLABS_API_KEY in .env")
  | None => raise (MkExn ValueError "Missing ELEVENLABS_API_KEY in .env")
  end.

End Tts.

(** ** backend/logic/summarizer.py *)
Module Summarizer.
Import PyStr.

Definition summary_prompt (text : string) : string :=
  "Summarize the following legal text in clear, simple terms:" +:+ nl +:+
  nl +:+
  text +:+ nl +:+
  nl +:+
  "Please provide a concise summary that explains:" +:+ nl +:+
  "1. The main purpose of this document" +:+ nl +:+
  "2. Key obligations and rights" +:+ nl +:+
  "3. Important terms to be aware of" +:+ nl +:+
  "4. Any potential risks or benefits" +:+ nl +:+
  nl +:+
  "Keep the summary accessible to non-lawyers." +:+ nl.

Definition summary_request (text : string) : ChatRequest :=
  {| model := "gpt-3.5-turbo";
     messages := [MkMessage "user" (summary_prompt text)];
     temperature := 4 # 10;
     max_tokens := 400 |}.

Definition summarize_text (env : Env) (text : string) : M string :=
  try_except
    (response <- chat env (summary_request text);;
     ret (strip response))
    (fun e => ret ("Error generating summary: " +:+ exn_str e)).

End Summarizer.

(** ** main.py: POST /speak/ *)
Module Main.
Import PyStr.

Inductive SpeakResponse :=
  | FileResponse (path media_type filename : string)
  | ErrorJson (error : string).

(** [payload_text] is the value under "text" of the JSON body, when the
    key is there. *)
Definition text_to_speech_endpoint (env : Env) (payload_text : option string)
  : M SpeakResponse :=
  let text := default "" payload_text in
  if negb (truthy text) then ret (ErrorJson "No text provided for TTS")
  else
    try_except
      (tmp_audio <- lift (NamedTemporaryFile env ".mp3" []);;
       audio_path <- Tts.text_to_speech env text tmp_audio;;
       ret (FileResponse audio_path "audio/mpeg" "speech.mp3"))
      (fun e => ret (ErrorJson ("TTS generation failed: " +:+ exn_str e))).

(** *** main.py: the other routes *)

(** POST /analyze/ : {"clauses": result} *)
Definition analyze_document (env : Env) (filename : string)
    (content : list Byte.byte) : M (list Analyzer.ClauseDict) :=
  result <- Analyzer.analyze_uploaded_file env filename content;;
  ret result.

(** POST /summarize/ : {"summary": summary} *)
Definition summarize_document (env : Env) (payload_text : option string) : M string :=
  let full_text := default "" payload_text in
  summary <- Summarizer.summarize_text env full_text;;
  ret summary.

Inductive WarrantiesResponse :=
  | GrantieAnalysisJson (grantie_analysis : Grantie.WarrantyAnalysis)
  | WarrantiesErrorJson (error : string).

(** POST /grantie/analyze/ *)
Definition analyze_warranties (env : Env) (payload_text : option string)
  : M WarrantiesResponse :=
  let text := default "" payload_text in
  if negb (truthy text) then ret (WarrantiesErrorJson "No text provided for analysis")
  else
    result <- Grantie.analyze_warranties_and_guarantees env text;;
    ret (GrantieAnalysisJson result).

Inductive ComplianceResponse :=
  | ComplianceJson (compliance : Grantie.ComplianceReport)
  | ComplianceErrorJson (error : string).

(** POST /grantie/compliance/ ; [payload_clauses] is the value under
    "clauses" of the JSON body, when the key is there. *)
Definition check_compliance (payload_clauses : option (list Analyzer.ClauseDict))
  : ComplianceResponse :=
  let clauses := default [] payload_clauses in
  match clauses with
  | [] => ComplianceErrorJson "No clauses provided for compliance check"
  | _ => ComplianceJson (Grantie.check_warranty_compliance clauses)
  end.

Record FullAnalysis := MkFullAnalysis {
  clauses : list Analyzer.ClauseDict;
  warranty_analysis : Grantie.WarrantyAnalysis;
  compliance : Grantie.ComplianceReport;
  filename : string
}.

(** clause["clause"]: a KeyError when the key is absent *)
Definition subscript_clause (clause : Analyzer.ClauseDict) : Result string :=
  match Analyzer.clause clause with
  | Some text => Ok text
  | None => Raise (MkExn OtherException "'clause'")
  end.

(** [f(x) for x in xs], stopping at the first exception *)
Fixpoint comprehension {A B} (f : A → Result B) (xs : list A) : Result (list B) :=
  match xs with
  | [] => Ok []
  | x :: xs' =>
      match f x with
      | Raise e => Raise e
      | Ok y =>
          match comprehension f xs' with
          | Raise e => Raise e
          | Ok ys => Ok (y :: ys)
          end
      end
  end.

(** POST /grantie/full-analysis/ *)
Definition full_grantie_analysis (env : Env) (filename : string)
    (content : list Byte.byte) : M FullAnalysis :=
  clauses_result <- Analyzer.analyze_uploaded_file env filename content;;
  texts <- lift (comprehension subscript_clause clauses_result);;
  let full_text := String.concat " " texts in
  warranty_analysis <- Grantie.analyze_warranties_and_guarantees env full_text;;
  let compliance_result := Grantie.check_warranty_compliance clauses_result in
  ret {| clauses := clauses_result;
         warranty_analysis := warranty_analysis;
         compliance := compliance_result;
         filename := filename |}.

End Main.

(** ** frontend/app.py: play_audio *)
Module Frontend.
Import PyStr.

(** play_audio posts {"text": text[:500]} to the /speak/ route of the
    backend; the route is run in place of the HTTP round trip, and its
    response is what the page then hands to the audio widget. *)
Definition play_audio (env : Env) (text : string) : M Main.SpeakResponse :=
  Main.text_to_speech_endpoint env (Some (slice_to 500 text)).

End Frontend.

(** ** backend/analyzer_free.py

    extract_clauses_from_docx and get_document_statistics of this file are
    those of analyzer.py, word for word, and are not repeated.
    The analysis texts of this file contain characters above U+00FF (a
    bullet and pictographs).  They occur in literals only, which the code
    concatenates and never inspects; here they are written in UTF-8. *)
Module AnalyzerFree.
Import PyStr.

Definition analyze_clause_simple (clause : string) : string :=
  let analysis := "Legal Clause Analysis:" +:+ nl +:+ nl in
  let clause_lower := lower clause in
  let analysis :=
    if any_in ["shall"; "must"; "required"] clause_lower
    then analysis +:+ "• This appears to be a mandatory obligation clause." +:+ nl
    else analysis in
  let analysis :=
    if any_in ["may"; "can"; "permitted"] clause_lower
    then analysis +:+ "• This clause grants permissions or rights." +:+ nl
    else analysis in
  let analysis :=
    if any_in ["terminate"; "end"; "cancel"] clause_lower
    then analysis +:+ "• This relates to termination or cancellation." +:+ nl
    else analysis in
  let analysis :=
    if any_in ["payment"; "pay"; "fee"; "cost"] clause_lower
    then analysis +:+ "• This clause involves financial obligations." +:+ nl
    else analysis in
  let analysis :=
    if any_in ["liability"; "responsible"; "damages"] clause_lower
    then analysis +:+ "• This clause addresses liability and responsibility." +:+ nl
    else analysis in
  let analysis :=
    if any_in ["confidential"; "non-disclosure"; "proprietary"] clause_lower
    then analysis +:+ "• This relates to confidentiality and information protection." +:+ nl
    else analysis in
  let high_risk_terms :=
    ["penalty"; "breach"; "default"; "liability"; "damages"; "terminate"] in
  let medium_risk_terms := ["obligation"; "requirement"; "must"; "shall"] in
  let analysis :=
    if any_in high_risk_terms clause_lower
    then analysis +:+ nl
           +:+ "⚠️ HIGH RISK: This clause may have significant consequences if not followed."
           +:+ nl
    else if any_in medium_risk_terms clause_lower
    then analysis +:+ nl
           +:+ "⚠️ MEDIUM RISK: This clause creates specific obligations." +:+ nl
    else analysis +:+ nl
           +:+ "✅ LOW RISK: This appears to be an informational or standard clause."
           +:+ nl in
  analysis +:+ nl
    +:+ "💡 Recommendation: Consider consulting with a legal professional for detailed interpretation.".

Definition analyze_clause_for_grantie_simple (clause : string) : string :=
  let analysis := "Warranty & Guarantee Analysis:" +:+ nl +:+ nl in
  let clause_lower := lower clause in
  let analysis :=
    if any_in ["warrant"; "warranty"] clause_lower then
      let analysis :=
        analysis +:+ "• WARRANTY FOUND: This clause contains warranty terms." +:+ nl in
      if contains "disclaim" clause_lower || contains "no warranty" clause_lower
      then (analysis +:+ "  - Contains warranty disclaimers" +:+ nl)
             +:+ "  - Risk Level: HIGH - Limited protection" +:+ nl
      else analysis +:+ "  - Risk Level: MEDIUM - Review warranty scope" +:+ nl
    else analysis in
  let analysis :=
    if any_in ["guarantee"; "assure"; "promise"] clause_lower
    then analysis +:+ "• GUARANTEE FOUND: This clause contains guarantee terms." +:+ nl
    else analysis in
  let analysis :=
    if any_in ["as-is"; "disclaim"; "limitation"] clause_lower
    then (analysis +:+ "• DISCLAIMER FOUND: This clause limits liability or warranties."
            +:+ nl)
           +:+ "  - Risk Level: HIGH - Reduced legal protection" +:+ nl
    else analysis in
  let analysis :=
    if any_in ["liable"; "liability"; "responsible"] clause_lower
    then analysis
           +:+ "• LIABILITY TERMS: This clause addresses responsibility for damages."
           +:+ nl
    else analysis in
  if negb (any_in ["warrant"; "warranty"; "guarantee"; "assure"; "promise";
                   "disclaim"; "liable"] clause_lower)
  then analysis
         +:+ "• No specific warranty or guarantee terms detected in this clause." +:+ nl
  else analysis.

Definition warranty_keywords : list string :=
  ["warrant"; "guarantee"; "assure"; "promise"; "liability"; "disclaim"; "as-is"].

(** The for loop of analyze_uploaded_file; no call in it can raise. *)
Fixpoint analyze_loop (clauses : list string) (results : list Analyzer.ClauseDict)
  : list Analyzer.ClauseDict :=
  match clauses with
  | [] => results
  | clause :: rest =>
      if (len (strip clause) <? 20)%nat then analyze_loop rest results
      else
        let analysis := analyze_clause_simple clause in
        let has_warranty_terms := any_in warranty_keywords (lower clause) in
        let result :=
          {| Analyzer.clause := Some clause;
             Analyzer.analysis := Some analysis;
             Analyzer.has_warranty_terms := Some has_warranty_terms;
             Analyzer.grantie_analysis := None |} in
        let result :=
          if has_warranty_terms
          then Analyzer.set_grantie_analysis result
                 (analyze_clause_for_grantie_simple clause)
          else result in
        analyze_loop rest (results ++ [result])
  end.

Definition analyze_uploaded_file (env : Env) (filename : string)
    (file_content : list Byte.byte) : list Analyzer.ClauseDict :=
  match NamedTemporaryFile env ".docx" file_content with
  | Raise e => [Analyzer.error_result e]
  | Ok tmp_path =>
      match Analyzer.extract_clauses_from_docx env tmp_path with
      | Raise e => [Analyzer.error_result e]
      | Ok [] =>
          [Analyzer.error_result
             (MkExn OtherException "No readable content found in the document")]
      | Ok clauses => analyze_loop clauses []
      end
  end.

End AnalyzerFree.

(** ** main_free.py *)
Module MainFree.
Import PyStr.

Definition simple_warranty_analysis (text : string) : Grantie.WarrantyAnalysis :=
  let text_lower := lower text in
  let warranties_found :=
    if contains "warrant" text_lower then ["Warranty terms detected"] else [] in
  let guarantees_found :=
    if contains "guarantee" text_lower then ["Guarantee terms detected"] else [] in
  let disclaimers : list string := [] in
  let disclaimers :=
    if contains "disclaim" text_lower
    then disclaimers ++ ["Disclaimer clauses found"] else disclaimers in
  let disclaimers :=
    if contains "as-is" text_lower
    then disclaimers ++ ["'As-is' terms found"] else disclaimers in
  let high_risk_terms := ["disclaim"; "as-is"; "no warranty"; "limitation of liability"] in
  let risk_level :=
    if any_in high_risk_terms text_lower then "High"
    else if any_in ["limited warranty"; "conditional"] text_lower then "Medium"
    else "Low" in
  let analysis :=
    nl +:+
    "Warranty Analysis (Rule-based):" +:+ nl +:+
    nl +:+
    "Warranties Found: " +:+ Tts.str_of_nat (length warranties_found) +:+ " clauses" +:+ nl +:+
    "Guarantees Found: " +:+ Tts.str_of_nat (length guarantees_found) +:+ " clauses" +:+ nl +:+
    "Disclaimers Found: " +:+ Tts.str_of_nat (length disclaimers) +:+ " items" +:+ nl +:+
    "Risk Level: " +:+ risk_level +:+ nl +:+
    nl +:+
    "Note: This is a basic rule-based analysis. For detailed AI analysis, please add credits to your OpenAI account." +:+ nl in
  {| Grantie.analysis := analysis;
     Grantie.summary :=
       {| Grantie.has_warranties := (0 <? length warranties_found)%nat;
          Grantie.has_guarantees := (0 <? length guarantees_found)%nat;
          Grantie.risk_level := risk_level |} |}.

(** One turn of the loop over warranty_clauses, on the list of issues. *)
Definition check_clause (issues : list string) (clause : Analyzer.ClauseDict)
  : list string :=
  let text := lower (default "" (Analyzer.clause clause)) in
  if contains "disclaim" text && negb (contains "notice" text)
  then issues ++ ["Potential issue: Disclaimer without proper notice"]
  else issues.

Definition simple_compliance_check (clauses : list Analyzer.ClauseDict)
  : Grantie.ComplianceReport :=
  let warranty_clauses :=
    List.filter (fun c => default false (Analyzer.has_warranty_terms c)) clauses in
  match warranty_clauses with
  | [] =>
      {| Grantie.compliance_issues := [];
         Grantie.recommendations :=
           ["No warranty clauses detected. Consider if warranty terms are needed."];
         Grantie.total_issues := 0 |}
  | _ =>
      let recommendations :=
        ["Found " +:+ Tts.str_of_nat (length warranty_clauses)
           +:+ " warranty-related clauses"] in
      let issues := fold_left check_clause warranty_clauses [] in
      {| Grantie.compliance_issues := issues;
         Grantie.recommendations := recommendations;
         Grantie.total_issues := length issues |}
  end.

End MainFree.

(** ** Vocabulary of the properties *)

(** [k] occurs in [s] as a substring when case is ignored. *)
Definition occurs_ci (k s : string) : Prop :=
  ∃ pre mid post, s = pre +:+ mid +:+ post ∧ PyStr.lower mid = PyStr.lower k.

Definition any_occurs_ci (ks : list string) (s : string) : Prop :=
  ∃ k, k ∈ ks ∧ occurs_ci k s.

(** The clauses the loop of analyze_uploaded_file does not skip
    (line 141), in document order. *)
Definition surviving (clauses : list string) : list string :=
  List.filter (fun clause => negb (PyStr.len (PyStr.strip clause) <? 10)%nat) clauses.

(** What analyze_clause_with_openai makes of an answer of the service. *)
Definition clause_outcome (r : Result string) : string :=
  match r with
  | Ok response => PyStr.strip response
  | Raise e => Analyzer.clause_error e
  end.

Definition grantie_outcome (r : Result string) : string :=
  match r with
  | Ok response => PyStr.strip response
  | Raise e => Analyzer.grantie_error e
  end.

(** The leading text that tells the failure classes of
    analyze_clause_with_openai apart. *)
Definition error_prefix (c : ExnClass) : string :=
  match c with
  | AuthenticationError => "Error: Invalid OpenAI API key"
  | RateLimitError => "Error: OpenAI rate limit exceeded"
  | APIError => "Error: OpenAI API error - "
  | _ => "Error analyzing clause: "
  end.

(** The texts sent to the speech service among the requests of a log. *)
Definition speech_texts (log : list Outbound) : list string :=
  omap (fun o => match o with
                 | SpeechCall r => Some (text (json r))
                 | ChatCall _ => None
                 end) log.

(** A record as analyze_uploaded_file builds it for the clause [c]. *)
Definition built_for (env : Env) (c : string) (r : Analyzer.ClauseDict) : Prop :=
  Analyzer.clause r = Some c
  ∧ Analyzer.has_warranty_terms r = Some (Analyzer.detect_warranty_terms c)
  ∧ (∃ log, Analyzer.analysis r
            = Some (clause_outcome (ChatCompletion_create env log (Analyzer.clause_request c))))
  ∧ (if Analyzer.detect_warranty_terms c
     then ∃ log, Analyzer.grantie_analysis r
                 = Some (grantie_outcome
                           (ChatCompletion_create env log (Analyzer.grantie_request c)))
     else Analyzer.grantie_analysis r = None).

(** The clauses check_warranty_compliance keeps (line 82), and the
    recommendations its loop over them collects (lines 92-105). *)
Definition warranty_clauses (clauses : list Analyzer.ClauseDict)
  : list Analyzer.ClauseDict :=
  List.filter Grantie.flagged clauses.

Definition per_clause_recommendations (clauses : list Analyzer.ClauseDict)
  : list string :=
  snd (fold_left Grantie.check_clause (warranty_clauses clauses) ([], [])).

(** ** Sample worlds and inputs *)
Module Sample.

(** A world in which the temporary file and the speech service work,
    python-docx reads [paragraphs], and the completion service answers
    by [answer]. *)
Definition world (key : option string) (paragraphs : list string)
    (answer : list Outbound → ChatRequest → Result string) : Env :=
  {| OPENAI_API_KEY := key;
     ELEVENLABS_API_KEY := Some "xi-sample";
     NamedTemporaryFile := fun suffix _ => Ok ("/tmp/tmpsample" +:+ suffix);
     Document := fun _ => Ok paragraphs;
     ChatCompletion_create := answer;
     requests_post := fun _ _ => Ok (MkHttpResponse 200 [] "");
     write_file := fun _ _ => Ok tt |}.

Definition always (response : string) : list Outbound → ChatRequest → Result string :=
  fun _ _ => Ok response.

(** The first request is refused for its key; later ones are answered. *)
Definition refuse_first : list Outbound → ChatRequest → Result string :=
  fun log _ =>
    match log with
    | [] => Raise (MkExn AuthenticationError "Incorrect API key provided")
    | _ => Ok " It means what it says. "
    end.

Definition two_clauses : list string :=
  ["The seller warrants the goods."; "Payment is due in thirty days."].

Definition short_paragraphs : list string := ["Hi"; "  Page 2  "].

Definition disclaimer : string :=
  "Seller disclaims all warranties; goods sold as-is.".

(** 501 characters *)
Definition long_text : string :=
  string_of_list_ascii (replicate 501 "a"%char).

Definition flagged_clause (text : string) : Analyzer.ClauseDict :=
  {| Analyzer.clause := Some text;
     Analyzer.analysis := Some "explained";
     Analyzer.has_warranty_terms := Some true;
     Analyzer.grantie_analysis := Some "assessed" |}.

Definition plain_clause (text : string) : Analyzer.ClauseDict :=
  {| Analyzer.clause := Some text;
     Analyzer.analysis := Some "explained";
     Analyzer.has_warranty_terms := Some false;
     Analyzer.grantie_analysis := None |}.

Definition four_flagged : list Analyzer.ClauseDict :=
  [flagged_clause "The warranty covers all parts.";
   flagged_clause "Seller guarantees delivery.";
   plain_clause "Payment is due in thirty days.";
   flagged_clause "The warranty lasts for 12 months.";
   flagged_clause "Buyer assumes liability."].

End Sample.

(** The requests analyze_uploaded_file sends for one clause it does not
    skip: the explanation first, then the warranty analysis when the
    clause is flagged. *)
Definition clause_calls (c : string) : list Outbound :=
  ChatCall (Analyzer.clause_request c)
  :: (if Analyzer.detect_warranty_terms c
      then [ChatCall (Analyzer.grantie_request c)] else []).

(** The issues and the recommendations that the loop of
    check_warranty_compliance adds for one clause. *)
Definition clause_issues (c : Analyzer.ClauseDict) : list string :=
  fst (Grantie.check_clause ([], []) c).

Definition clause_recommendations (c : Analyzer.ClauseDict) : list string :=
  snd (Grantie.check_clause ([], []) c).

(** The text check_warranty_compliance reads from a clause. *)
Definition clause_text (c : Analyzer.ClauseDict) : string :=
  default "" (Analyzer.clause c).

(** The record analyzer_free.py builds for the clause [c]. *)
Definition free_record (c : string) : Analyzer.ClauseDict :=
  {| Analyzer.clause := Some c;
     Analyzer.analysis := Some (AnalyzerFree.analyze_clause_simple c);
     Analyzer.has_warranty_terms := Some (Analyzer.detect_warranty_terms c);
     Analyzer.grantie_analysis :=
       if Analyzer.detect_warranty_terms c
       then Some (AnalyzerFree.analyze_clause_for_grantie_simple c) else None |}.

(** What the two analysis modes have in common in a record: the clause
    text and the flag. *)
Definition record_key (r : Analyzer.ClauseDict) : option string * option bool :=
  (Analyzer.clause r, Analyzer.has_warranty_terms r).

(** ** The model on concrete inputs *)
Section Checks.
Import PyStr.

Example lower_mixed_case : lower "Seller DISCLAIMS All" = "seller disclaims all".
Proof. reflexivity. Qed.

Example strip_both_ends : strip ("  Page 2 " +:+ nl) = "Page 2".
Proof. reflexivity. Qed.

Example contains_inner : contains "as-is" "goods sold as-is." = true.
Proof. reflexivity. Qed.

Example contains_longer : contains "warranty" "warrant" = false.
Proof. reflexivity. Qed.

Example slice_to_short : slice_to 500 "short" = "short".
Proof. reflexivity. Qed.

Example assess_risk_medium :
  Grantie.assess_risk "A Limited Warranty applies." = "Medium".
Proof. reflexivity. Qed.

Example compliance_four_flagged :
  Grantie.check_warranty_compliance Sample.four_flagged
  = {| Grantie.compliance_issues := [];
       Grantie.recommendations :=
         [Grantie.time_limit_recommendation; Grantie.consistency_recommendation];
       Grantie.total_issues := 0 |}.
Proof. reflexivity. Qed.

Example upload_two_clauses :
  result_of
    (Analyzer.analyze_uploaded_file
       (Sample.world (Some "sk-sample") Sample.two_clauses Sample.refuse_first)
       "contract.docx" []) []
  = Ok [{| Analyzer.clause := Some "The seller warrants the goods.";
           Analyzer.analysis :=
             Some "Error: Invalid OpenAI API key. Please check your .env file.";
           Analyzer.has_warranty_terms := Some true;
           Analyzer.grantie_analysis := Some "It means what it says." |};
        {| Analyzer.clause := Some "Payment is due in thirty days.";
           Analyzer.analysis := Some "It means what it says.";
           Analyzer.has_warranty_terms := Some false;
           Analyzer.grantie_analysis := None |}].
Proof. reflexivity. Qed.

Example grantie_simple_no_terms :
  AnalyzerFree.analyze_clause_for_grantie_simple "Payment terms."
  = "Warranty & Guarantee Analysis:" +:+ nl +:+ nl
      +:+ "• No specific warranty or guarantee terms detected in this clause." +:+ nl.
Proof. reflexivity. Qed.

Example free_compliance_four_flagged :
  MainFree.simple_compliance_check Sample.four_flagged
  = {| Grantie.compliance_issues := [];
       Grantie.recommendations := ["Found 4 warranty-related clauses"];
       Grantie.total_issues := 0 |}.
Proof. reflexivity. Qed.

Example free_summary_disclaimer :
  Grantie.summary (MainFree.simple_warranty_analysis Sample.disclaimer)
  = {| Grantie.has_warranties := true;
       Grantie.has_guarantees := false;
       Grantie.risk_level := "High" |}.
Proof. reflexivity. Qed.

Example statistics_four_flagged :
  Analyzer.get_document_statistics Sample.four_flagged
  = {| Analyzer.total_clauses := 5;
       Analyzer.warranty_related_clauses := 4;
       Analyzer.warranty_percentage := Analyzer.PercentRounded 4 5 2 |}.
Proof. reflexivity. Qed.

End Checks.

(** ** Facts about the string primitives *)
Section StringFacts.
Import PyStr.

Lemma str_app_nil_r (s : string) : s +:+ "" = s.
Proof. induction s as [|c s IH]; [done|]. unfold String.app in *; simpl. by rewrite IH. Qed.

Lemma str_app_assoc (a b c : string) : (a +:+ b) +:+ c = a +:+ b +:+ c.
Proof.
  induction a as [|x a IH]; [done|].
  unfold String.app in *; simpl. by rewrite IH.
Qed.

Lemma str_app_cons (x : ascii) (a b : string) : String x a +:+ b = String x (a +:+ b).
Proof. done. Qed.

Lemma lower_app (a b : string) : lower (a +:+ b) = lower a +:+ lower b.
Proof.
  induction a as [|x a IH]; [done|].
  rewrite !str_app_cons; simpl. by rewrite IH, str_app_cons.
Qed.

(** A split of [lower t] comes from a split of [t]. *)
Lemma lower_split (t x y : string) :
  lower t = x +:+ y → ∃ t1 t2, t = t1 +:+ t2 ∧ lower t1 = x ∧ lower t2 = y.
Proof.
  revert t. induction x as [|c x IH]; intros t H.
  - exists "", t. done.
  - destruct t as [|d t]; [done|].
    rewrite str_app_cons in H. simpl in H. injection H as Hc Ht.
    destruct (IH _ Ht) as (t1 & t2 & -> & H1 & H2).
    exists (String d t1), t2. rewrite str_app_cons. simpl. by rewrite Hc, H1.
Qed.

Lemma prefix_spec (k s : string) :
  String.prefix k s = true ↔ ∃ post, s = k +:+ post.
Proof.
  revert s. induction k as [|c k IH]; intros s.
  - split; [intros _; by exists s|]. by destruct s.
  - destruct s as [|d s]; simpl.
    + split; [done|]. intros [post H]. by rewrite str_app_cons in H.
    + destruct (ascii_dec c d) as [->|Hne].
      * rewrite IH. split; intros [post H]; exists post.
        -- by rewrite str_app_cons, H.
        -- rewrite str_app_cons in H. by injection H.
      * split; [done|]. intros [post H]. rewrite str_app_cons in H. by injection H.
Qed.

Lemma contains_spec (k s : string) :
  contains k s = true ↔ ∃ pre post, s = pre +:+ k +:+ post.
Proof.
  induction s as [|d s IH].
  - cbn [contains]. rewrite orb_false_r, prefix_spec. split.
    + intros [post H]. by exists "", post.
    + intros (pre & post & H). destruct pre; [by exists post|done].
  - cbn [contains]. rewrite orb_true_iff, prefix_spec, IH. split.
    + intros [[post H]|(pre & post & H)].
      * by exists "", post.
      * exists (String d pre), post. by rewrite str_app_cons, H.
    + intros (pre & post & H). destruct pre as [|x pre].
      * left. by exists post.
      * right. rewrite str_app_cons in H. injection H as _ H. by exists pre, post.
Qed.

(** [k in s.lower()], for a keyword that is already in lower case, is
    occurrence up to case. *)
Lemma contains_lower (k s : string) :
  lower k = k → contains k (lower s) = true ↔ occurs_ci k s.
Proof.
  intros Hk. rewrite contains_spec. unfold occurs_ci. split.
  - intros (a & b & H).
    destruct (lower_split _ _ _ H) as (pre & rest & -> & <- & H2).
    destruct (lower_split _ _ _ H2) as (mid & post & -> & H3 & <-).
    exists pre, mid, post. by rewrite Hk.
  - intros (pre & mid & post & -> & H).
    exists (lower pre), (lower post). by rewrite !lower_app, H, Hk.
Qed.

Lemma any_in_lower (ks : list string) (s : string) :
  Forall (fun k => lower k = k) ks →
  any_in ks (lower s) = true ↔ any_occurs_ci ks s.
Proof.
  intros Hks. unfold any_in, any_occurs_ci. rewrite existsb_exists. split.
  - intros (k & Hin & H). exists k. split; [by apply list_elem_of_In|].
    apply contains_lower; [|done].
    rewrite Forall_forall in Hks. apply Hks. by apply list_elem_of_In.
  - intros (k & Hin & H). exists k. split; [by apply list_elem_of_In|].
    apply contains_lower; [|done].
    rewrite Forall_forall in Hks. by apply Hks.
Qed.

Lemma any_in_lower_false (ks : list string) (s : string) :
  Forall (fun k => lower k = k) ks →
  any_in ks (lower s) = false ↔ ¬ any_occurs_ci ks s.
Proof.
  intros Hks. rewrite <- (any_in_lower ks s Hks). by destruct (any_in ks (lower s)).
Qed.

Lemma length_slice_to (n : nat) (s : string) : len (slice_to n s) ≤ n.
Proof.
  unfold len, slice_to. revert s. induction n as [|n IH]; intros [|c s]; simpl; try lia.
  specialize (IH s). lia.
Qed.

End StringFacts.

(** ** Facts about the pipeline of analyzer.py *)
Section PipelineFacts.
Import PyStr Analyzer.

Variable env : Env.

Ltac run := unfold bind, ret, raise, lift, try_except, chat; simpl.

Lemma analyze_clause_configured (c : string) (log : list Outbound) :
  configured (OPENAI_API_KEY env) = true →
  analyze_clause_with_openai env c log
  = (Ok (clause_outcome (ChatCompletion_create env log (clause_request c))),
     log ++ [ChatCall (clause_request c)]).
Proof.
  intros Hk. unfold analyze_clause_with_openai. rewrite Hk. run.
  by destruct (ChatCompletion_create env log (clause_request c)).
Qed.

Lemma analyze_clause_unconfigured (c : string) (log : list Outbound) :
  configured (OPENAI_API_KEY env) = false →
  analyze_clause_with_openai env c log
  = (Raise (MkExn OtherException
              "OpenAI API key not configured. Please check your .env file."), log).
Proof. intros Hk. unfold analyze_clause_with_openai. by rewrite Hk. Qed.

Lemma grantie_configured (c : string) (log : list Outbound) :
  configured (OPENAI_API_KEY env) = true →
  analyze_clause_for_grantie env c log
  = (Ok (grantie_outcome (ChatCompletion_create env log (grantie_request c))),
     log ++ [ChatCall (grantie_request c)]).
Proof.
  intros Hk. unfold analyze_clause_for_grantie. rewrite Hk. run.
  by destruct (ChatCompletion_create env log (grantie_request c)).
Qed.

(** One turn of the loop, with the binds written out. *)
Lemma analyze_loop_step (c : string) (rest : list string)
    (acc : list ClauseDict) (log : list Outbound) :
  analyze_loop env (c :: rest) acc log
  = if (len (strip c) <? 10)%nat then analyze_loop env rest acc log
    else
      match analyze_clause_with_openai env c log with
      | (Raise e, log1) => (Raise e, log1)
      | (Ok a, log1) =>
          let result :=
            {| clause := Some c;
               analysis := Some a;
               has_warranty_terms := Some (detect_warranty_terms c);
               grantie_analysis := None |} in
          if detect_warranty_terms c then
            match analyze_clause_for_grantie env c log1 with
            | (Ok g, log2) =>
                analyze_loop env rest (acc ++ [set_grantie_analysis result g]) log2
            | (Raise e, log2) => (Raise e, log2)
            end
          else analyze_loop env rest (acc ++ [result]) log1
      end.
Proof.
  cbn [analyze_loop]. destruct (len (strip c) <? 10)%nat; [done|].
  unfold bind.
  destruct (analyze_clause_with_openai env c log) as [[a|e] log1]; [|done].
  destruct (detect_warranty_terms c); [|done].
  by destruct (analyze_clause_for_grantie env c log1) as [[g|e] log2].
Qed.

(** The loop only ever appends to the list it was started with. *)
Lemma analyze_loop_acc (clauses : list string) :
  ∀ (acc : list ClauseDict) (log : list Outbound),
    analyze_loop env clauses acc log
    = match analyze_loop env clauses [] log with
      | (Ok recs, log') => (Ok (acc ++ recs), log')
      | (Raise e, log') => (Raise e, log')
      end.
Proof.
  induction clauses as [|c rest IH]; intros acc log.
  - simpl. run. by rewrite app_nil_r.
  - rewrite !analyze_loop_step. destruct (len (strip c) <? 10)%nat; [apply IH|].
    destruct (analyze_clause_with_openai env c log) as [[a|e] log1]; [|done].
    cbv zeta. destruct (detect_warranty_terms c).
    + destruct (analyze_clause_for_grantie env c log1) as [[g|e] log2]; [|done].
      rewrite (IH (acc ++ _)), (IH ([] ++ _)).
      destruct (analyze_loop env rest [] log2) as [[recs|e] log3]; [|done].
      by rewrite <- app_assoc.
    + rewrite (IH (acc ++ _)), (IH ([] ++ _)).
      destruct (analyze_loop env rest [] log1) as [[recs|e] log3]; [|done].
      by rewrite <- app_assoc.
Qed.

(** Running the loop over [l1 ++ l2] is running it over [l1], then over
    [l2] with the list and the log that the first run leaves. *)
Lemma analyze_loop_app (l1 l2 : list string) :
  ∀ (acc : list ClauseDict) (log : list Outbound),
    analyze_loop env (l1 ++ l2) acc log
    = match analyze_loop env l1 acc log with
      | (Ok acc', log') => analyze_loop env l2 acc' log'
      | (Raise e, log') => (Raise e, log')
      end.
Proof.
  induction l1 as [|c rest IH]; intros acc log; [done|].
  rewrite <- app_comm_cons, !analyze_loop_step.
  destruct (len (strip c) <? 10)%nat; [apply IH|].
  destruct (analyze_clause_with_openai env c log) as [[a|e] log1]; [|done].
  cbv zeta. destruct (detect_warranty_terms c); [|apply IH].
  destruct (analyze_clause_for_grantie env c log1) as [[g|e] log2]; [|done].
  apply IH.
Qed.

Lemma surviving_cons (c : string) (rest : list string) :
  surviving (c :: rest)
  = if (len (strip c) <? 10)%nat then surviving rest else c :: surviving rest.
Proof. unfold surviving. simpl. by destruct (len (strip c) <? 10)%nat. Qed.

Lemma surviving_app (l1 l2 : list string) :
  surviving (l1 ++ l2) = surviving l1 ++ surviving l2.
Proof. unfold surviving. apply List.filter_app. Qed.

(** With a key, the loop never raises: it returns one record per
    surviving clause, in order. *)
Lemma analyze_loop_configured (clauses : list string) :
  configured (OPENAI_API_KEY env) = true →
  ∀ log, ∃ recs log',
    analyze_loop env clauses [] log = (Ok recs, log')
    ∧ Forall2 (built_for env) (surviving clauses) recs.
Proof.
  intros Hk. induction clauses as [|c rest IH]; intros log.
  - exists [], log. split; [done|]. constructor.
  - rewrite surviving_cons, analyze_loop_step.
    destruct (len (strip c) <? 10)%nat; [apply IH|].
    rewrite (analyze_clause_configured _ _ Hk). cbv zeta.
    assert (Hrec : ∀ (r : ClauseDict) (log1 : list Outbound),
               built_for env c r →
               ∃ recs log', analyze_loop env rest ([] ++ [r]) log1 = (Ok recs, log')
                            ∧ Forall2 (built_for env) (c :: surviving rest) recs).
    { intros r log1 Hr. rewrite analyze_loop_acc.
      destruct (IH log1) as (recs & log' & -> & HF).
      exists (([] ++ [r]) ++ recs), log'. split; [done|]. by constructor. }
    destruct (detect_warranty_terms c) eqn:Hw.
    + rewrite (grantie_configured _ _ Hk).
      apply Hrec. unfold built_for. rewrite Hw. simpl. eauto 10.
    + apply Hrec. unfold built_for. rewrite Hw. simpl. eauto 10.
Qed.

(** Without a key, the first surviving clause ends the loop. *)
Lemma analyze_loop_unconfigured (clauses : list string) :
  configured (OPENAI_API_KEY env) = false →
  ∀ acc log,
    analyze_loop env clauses acc log
    = match surviving clauses with
      | [] => (Ok acc, log)
      | _ => (Raise (MkExn OtherException
                       "OpenAI API key not configured. Please check your .env file."), log)
      end.
Proof.
  intros Hk. induction clauses as [|c rest IH]; intros acc log; [done|].
  rewrite surviving_cons, analyze_loop_step.
  destruct (len (strip c) <? 10)%nat; [apply IH|].
  by rewrite (analyze_clause_unconfigured _ _ Hk).
Qed.

(** analyze_uploaded_file, one case per exit of its try block. *)
Lemma analyze_uploaded_file_cases (filename : string)
    (file_content : list Byte.byte) (log : list Outbound) :
  analyze_uploaded_file env filename file_content log
  = match NamedTemporaryFile env ".docx" file_content with
    | Raise e => (Ok [error_result e], log)
    | Ok tmp_path =>
        match extract_clauses_from_docx env tmp_path with
        | Raise e => (Ok [error_result e], log)
        | Ok [] =>
            (Ok [error_result
                   (MkExn OtherException "No readable content found in the document")],
             log)
        | Ok clauses =>
            match analyze_loop env clauses [] log with
            | (Ok results, log') => (Ok results, log')
            | (Raise e, log') => (Ok [error_result e], log')
            end
        end
    end.
Proof.
  unfold analyze_uploaded_file. run.
  destruct (NamedTemporaryFile env ".docx" file_content) as [tmp_path|e]; [|done].
  destruct (extract_clauses_from_docx env tmp_path) as [[|c clauses]|e]; done.
Qed.

End PipelineFacts.

(** ** Properties of analyze_uploaded_file *)
Section UploadProperties.
Import PyStr Analyzer.

Lemma built_for_presence (env : Env) (c : string) (r : ClauseDict) :
  built_for env c r →
  is_Some (grantie_analysis r) ↔ has_warranty_terms r = Some true.
Proof.
  intros (_ & Hflag & _ & Hg). rewrite Hflag.
  destruct (detect_warranty_terms c).
  - destruct Hg as [log ->]. split; [done|]. intros _. by eexists.
  - rewrite Hg. split; [by intros [g Hsome]|done].
Qed.

(** The call always returns a list: the one error record, or records
    built for clauses of the document. *)
Lemma analyze_uploaded_file_shape (env : Env) (filename : string)
    (file_content : list Byte.byte) (log : list Outbound) :
  ∃ results log',
    analyze_uploaded_file env filename file_content log = (Ok results, log')
    ∧ ((∃ e, results = [error_result e])
       ∨ (∃ cs, Forall2 (built_for env) cs results)).
Proof.
  rewrite analyze_uploaded_file_cases.
  destruct (NamedTemporaryFile env ".docx" file_content) as [tmp_path|e];
    [|by eauto 10].
  destruct (extract_clauses_from_docx env tmp_path) as [[|c clauses]|e];
    [by eauto 10| |by eauto 10].
  destruct (configured (OPENAI_API_KEY env)) eqn:Hk.
  - destruct (analyze_loop_configured env (c :: clauses) Hk log)
      as (recs & log' & -> & HF).
    eauto 10.
  - rewrite (analyze_loop_unconfigured env _ Hk).
    destruct (surviving (c :: clauses)); [|by eauto 10].
    exists [], log. split; [done|]. right. exists []. constructor.
Qed.

(** C1: in every list analyze_uploaded_file returns, a record carries the
    key grantie_analysis if and only if its has_warranty_terms is True. *)
Theorem C1_grantie_analysis_iff_warranty_terms (env : Env) (filename : string)
    (file_content : list Byte.byte) (log : list Outbound) :
  ∃ results,
    result_of (analyze_uploaded_file env filename file_content) log = Ok results
    ∧ Forall (fun r => is_Some (grantie_analysis r)
                       ↔ has_warranty_terms r = Some true) results.
Proof.
  destruct (analyze_uploaded_file_shape env filename file_content log)
    as (results & log' & Hrun & Hshape).
  exists results. unfold result_of. rewrite Hrun. split; [done|].
  destruct Hshape as [[e ->]|[cs HF]].
  - constructor; [|constructor]. simpl. split; [by intros [g Hg]|done].
  - clear Hrun. induction HF as [|c r cs rs Hr _ IH]; [constructor|].
    constructor; [|done]. by apply (built_for_presence env c).
Qed.

(** C2, as stated, fails: a document whose paragraphs are all shorter
    than ten characters has no surviving clause, and the call returns
    the empty list, not an error record. *)
Lemma C2_short_paragraphs_give_empty_list :
  extract_clauses_from_docx
    (Sample.world (Some "sk-sample") Sample.short_paragraphs (Sample.always "fine"))
    "/tmp/tmpsample.docx" = Ok ["Hi"; "Page 2"]
  ∧ surviving ["Hi"; "Page 2"] = []
  ∧ result_of
      (analyze_uploaded_file
         (Sample.world (Some "sk-sample") Sample.short_paragraphs (Sample.always "fine"))
         "short.docx" []) [] = Ok [].
Proof. by vm_compute. Qed.

(** C2, amended: the abort is decided before the length filter.  When
    the document yields no clause at all, the call returns the single
    error record (never the empty list); when it yields clauses of which
    none survives the length filter, the call returns the empty list. *)
Theorem C2_abort_is_decided_before_the_filter (env : Env) (filename : string)
    (file_content : list Byte.byte) (log : list Outbound)
    (tmp_path : string) (clauses : list string) :
  NamedTemporaryFile env ".docx" file_content = Ok tmp_path →
  extract_clauses_from_docx env tmp_path = Ok clauses →
  surviving clauses = [] →
  result_of (analyze_uploaded_file env filename file_content) log
  = match clauses with
    | [] => Ok [error_result
                  (MkExn OtherException "No readable content found in the document")]
    | _ => Ok []
    end.
Proof.
  intros Htmp Hdoc Hnone. unfold result_of.
  rewrite analyze_uploaded_file_cases, Htmp, Hdoc.
  destruct clauses as [|c rest]; [done|].
  destruct (configured (OPENAI_API_KEY env)) eqn:Hk.
  - destruct (analyze_loop_configured env (c :: rest) Hk log)
      as (recs & log' & -> & HF).
    rewrite Hnone in HF. by inversion HF.
  - by rewrite (analyze_loop_unconfigured env _ Hk), Hnone.
Qed.

Lemma C2_abort_is_decided_before_the_filter_witness :
  let env := Sample.world (Some "sk-sample") [] (Sample.always "fine") in
  NamedTemporaryFile env ".docx" [] = Ok "/tmp/tmpsample.docx"
  ∧ extract_clauses_from_docx env "/tmp/tmpsample.docx" = Ok []
  ∧ surviving [] = []
  ∧ result_of (analyze_uploaded_file env "empty.docx" []) []
    = Ok [error_result
            (MkExn OtherException "No readable content found in the document")].
Proof.
  intros env.
  split; [reflexivity|]. split; [reflexivity|]. split; [reflexivity|].
  exact (C2_abort_is_decided_before_the_filter env "empty.docx" [] []
           "/tmp/tmpsample.docx" [] eq_refl eq_refl eq_refl).
Defined.

(** C3, as stated, fails: without an API key a document with two
    surviving clauses gives one record, the error record. *)
Lemma C3_no_key_gives_one_error_record :
  extract_clauses_from_docx
    (Sample.world None Sample.two_clauses (Sample.always "fine"))
    "/tmp/tmpsample.docx" = Ok Sample.two_clauses
  ∧ length (surviving Sample.two_clauses) = 2
  ∧ result_of
      (analyze_uploaded_file
         (Sample.world None Sample.two_clauses (Sample.always "fine"))
         "contract.docx" []) []
    = Ok [error_result
            (MkExn OtherException
               "OpenAI API key not configured. Please check your .env file.")].
Proof. by vm_compute. Qed.

(** C3, amended: when the OpenAI API key is configured, for every
    document with at least one clause surviving the length filter the
    returned list has exactly one record per surviving clause, and the
    records are in the order of the clauses in the document. *)
Theorem C3_one_record_per_surviving_clause (env : Env) (filename : string)
    (file_content : list Byte.byte) (log : list Outbound)
    (tmp_path : string) (clauses : list string) :
  configured (OPENAI_API_KEY env) = true →
  NamedTemporaryFile env ".docx" file_content = Ok tmp_path →
  extract_clauses_from_docx env tmp_path = Ok clauses →
  surviving clauses ≠ [] →
  ∃ results,
    result_of (analyze_uploaded_file env filename file_content) log = Ok results
    ∧ length results = length (surviving clauses)
    ∧ map clause results = map Some (surviving clauses)
    ∧ Forall2 (built_for env) (surviving clauses) results.
Proof.
  intros Hk Htmp Hdoc Hsome. unfold result_of.
  rewrite analyze_uploaded_file_cases, Htmp, Hdoc.
  destruct clauses as [|c rest]; [done|].
  destruct (analyze_loop_configured env (c :: rest) Hk log)
    as (recs & log' & -> & HF).
  exists recs. split; [done|]. split; [by rewrite (Forall2_length _ _ _ HF)|].
  split; [|done]. clear Hsome Hdoc.
  induction HF as [|x r xs rs Hr _ IH]; [done|].
  simpl. rewrite IH. by destruct Hr as (-> & _).
Qed.

Lemma C3_one_record_per_surviving_clause_witness :
  let env := Sample.world (Some "sk-sample") Sample.two_clauses (Sample.always "fine") in
  configured (OPENAI_API_KEY env) = true
  ∧ NamedTemporaryFile env ".docx" [] = Ok "/tmp/tmpsample.docx"
  ∧ extract_clauses_from_docx env "/tmp/tmpsample.docx" = Ok Sample.two_clauses
  ∧ surviving Sample.two_clauses ≠ []
  ∧ ∃ results,
      result_of (analyze_uploaded_file env "contract.docx" []) [] = Ok results
      ∧ length results = length (surviving Sample.two_clauses)
      ∧ map clause results = map Some (surviving Sample.two_clauses)
      ∧ Forall2 (built_for env) (surviving Sample.two_clauses) results.
Proof.
  intros env.
  assert (Hsome : surviving Sample.two_clauses ≠ []) by (by vm_compute).
  split; [reflexivity|]. split; [reflexivity|]. split; [reflexivity|].
  split; [exact Hsome|].
  exact (C3_one_record_per_surviving_clause env "contract.docx" [] []
           "/tmp/tmpsample.docx" Sample.two_clauses eq_refl eq_refl eq_refl Hsome).
Defined.

(** The error text starts with the prefix of its own class and of no
    other class. *)
Lemma clause_error_prefix (e : Exn) :
  String.prefix (error_prefix (exn_class e)) (clause_error e) = true
  ∧ ∀ k, String.prefix (error_prefix k) (clause_error e) = true →
         error_prefix k = error_prefix (exn_class e).
Proof.
  destruct e as [cls msg]. split.
  - destruct cls; try reflexivity; unfold clause_error; simpl exn_class;
      cbn [error_prefix]; apply prefix_spec; by exists msg.
  - intros k. by destruct cls, k; vm_compute.
Qed.

(** A failure of the service at the clause [c], met after the clauses
    [before], is absorbed into the record of [c]; the clauses [after]
    are still analysed. *)
Lemma analyze_loop_absorbs_failure (env : Env) (before after : list string)
    (c : string) (e : Exn) (log : list Outbound) :
  configured (OPENAI_API_KEY env) = true →
  (len (strip c) <? 10)%nat = false →
  ChatCompletion_create env (log_of (analyze_loop env before []) log) (clause_request c)
  = Raise e →
  ∃ results r log',
    analyze_loop env (before ++ c :: after) [] log = (Ok results, log')
    ∧ Forall2 (built_for env) (surviving (before ++ c :: after)) results
    ∧ results !! length (surviving before) = Some r
    ∧ clause r = Some c
    ∧ analysis r = Some (clause_error e).
Proof.
  intros Hk Hlong Hfail. rewrite analyze_loop_app.
  destruct (analyze_loop_configured env before Hk log) as (recs1 & log1 & Hrun1 & HF1).
  unfold log_of in Hfail. rewrite Hrun1 in Hfail |- *. simpl in Hfail.
  rewrite analyze_loop_step, Hlong, (analyze_clause_configured _ _ _ Hk), Hfail.
  cbv zeta. simpl clause_outcome.
  rewrite surviving_app, surviving_cons, Hlong.
  assert (Hrest : ∀ (r : ClauseDict) (log2 : list Outbound),
             built_for env c r → clause r = Some c →
             analysis r = Some (clause_error e) →
             ∃ results r' log',
               analyze_loop env after (recs1 ++ [r]) log2 = (Ok results, log')
               ∧ Forall2 (built_for env) (surviving before ++ c :: surviving after) results
               ∧ results !! length (surviving before) = Some r'
               ∧ clause r' = Some c ∧ analysis r' = Some (clause_error e)).
  { intros r log2 Hr Hc Ha. rewrite analyze_loop_acc.
    destruct (analyze_loop_configured env after Hk log2) as (recs3 & log3 & -> & HF3).
    exists ((recs1 ++ [r]) ++ recs3), r, log3. split; [done|].
    rewrite <- app_assoc. simpl. split.
    - apply Forall2_app; [done|]. by constructor.
    - split; [|done]. apply list_lookup_middle. by rewrite (Forall2_length _ _ _ HF1). }
  assert (Hanalysis : ∃ log0, Some (clause_error e)
              = Some (clause_outcome (ChatCompletion_create env log0 (clause_request c))))
    by (exists log1; by rewrite Hfail).
  destruct (detect_warranty_terms c) eqn:Hw.
  - rewrite (grantie_configured _ _ _ Hk). apply Hrest; [|done..].
    unfold built_for. rewrite Hw. simpl. repeat split; [done|]. by eexists.
  - apply Hrest; [|done..].
    unfold built_for. rewrite Hw. simpl. by repeat split.
Qed.

(** C4: with the completion service reachable (key configured),
    analyze_clause_with_openai does not raise when the service fails: it
    returns an error text whose prefix is that of the failure class
    (authentication, rate limit, API error, other) and of no other
    class.  When the service fails for one clause of a document (for
    instance with an authentication failure), the record of that clause
    carries the error text as its analysis, and the list still has one
    record for every surviving clause. *)
Theorem C4_service_failure_is_absorbed (env : Env) :
  configured (OPENAI_API_KEY env) = true →
  (∀ c log e,
      ChatCompletion_create env log (clause_request c) = Raise e →
      result_of (analyze_clause_with_openai env c) log = Ok (clause_error e)
      ∧ String.prefix (error_prefix (exn_class e)) (clause_error e) = true
      ∧ (∀ k, String.prefix (error_prefix k) (clause_error e) = true →
              error_prefix k = error_prefix (exn_class e))
      ∧ (exn_class e = AuthenticationError →
         clause_error e = "Error: Invalid OpenAI API key. Please check your .env file."))
  ∧ (∀ filename file_content log tmp_path before c after e,
       NamedTemporaryFile env ".docx" file_content = Ok tmp_path →
       extract_clauses_from_docx env tmp_path = Ok (before ++ c :: after) →
       (len (strip c) <? 10)%nat = false →
       ChatCompletion_create env (log_of (analyze_loop env before []) log)
         (clause_request c) = Raise e →
       ∃ results r,
         result_of (analyze_uploaded_file env filename file_content) log = Ok results
         ∧ Forall2 (built_for env) (surviving (before ++ c :: after)) results
         ∧ results !! length (surviving before) = Some r
         ∧ clause r = Some c
         ∧ analysis r = Some (clause_error e)).
Proof.
  intros Hk. split.
  - intros c log e Hfail. unfold result_of.
    rewrite (analyze_clause_configured _ _ _ Hk), Hfail. simpl.
    split; [done|]. split; [apply clause_error_prefix|].
    split; [apply clause_error_prefix|].
    intros Hauth. unfold clause_error. by rewrite Hauth.
  - intros filename file_content log tmp_path before c after e Htmp Hdoc Hlong Hfail.
    destruct (analyze_loop_absorbs_failure env before after c e log Hk Hlong Hfail)
      as (results & r & log' & Hrun & HF & Hat & Hc & Ha).
    exists results, r. unfold result_of.
    rewrite analyze_uploaded_file_cases, Htmp, Hdoc.
    assert (Hne : ∃ x xs, before ++ c :: after = x :: xs)
      by (destruct before; simpl; eauto).
    destruct Hne as (x & xs & Hne). rewrite Hne in *. by rewrite Hrun.
Qed.

Lemma C4_service_failure_is_absorbed_witness :
  let env := Sample.world (Some "sk-sample") Sample.two_clauses Sample.refuse_first in
  configured (OPENAI_API_KEY env) = true
  ∧ ChatCompletion_create env (log_of (analyze_loop env [] []) [])
      (clause_request "The seller warrants the goods.")
    = Raise (MkExn AuthenticationError "Incorrect API key provided")
  ∧ ∃ results r,
      result_of (analyze_uploaded_file env "contract.docx" []) [] = Ok results
      ∧ Forall2 (built_for env) (surviving Sample.two_clauses) results
      ∧ results !! 0 = Some r
      ∧ clause r = Some "The seller warrants the goods."
      ∧ analysis r
        = Some (clause_error (MkExn AuthenticationError "Incorrect API key provided")).
Proof.
  intros env. split; [reflexivity|]. split; [reflexivity|].
  exact (proj2 (C4_service_failure_is_absorbed env eq_refl)
           "contract.docx" [] [] "/tmp/tmpsample.docx"
           [] "The seller warrants the goods." ["Payment is due in thirty days."]
           (MkExn AuthenticationError "Incorrect API key provided")
           eq_refl eq_refl eq_refl eq_refl).
Defined.

(** C5: the triage flag is a function of the clause text alone: it is
    True exactly when one of warrant, guarantee, assure, promise,
    liability, disclaim, as-is occurs in the text when case is ignored;
    every record that analyze_uploaded_file returns carries the flag of
    its own clause text; the sample disclaimer is flagged. *)
Theorem C5_triage_is_keyword_occurrence :
  (∀ text, detect_warranty_terms text = true
           ↔ any_occurs_ci
               ["warrant"; "guarantee"; "assure"; "promise"; "liability";
                "disclaim"; "as-is"] text)
  ∧ (∀ env filename file_content log,
       ∃ results,
         result_of (analyze_uploaded_file env filename file_content) log = Ok results
         ∧ Forall (fun r => ∃ c, clause r = Some c
                                 ∧ has_warranty_terms r = Some (detect_warranty_terms c))
             results)
  ∧ detect_warranty_terms "Seller disclaims all warranties; goods sold as-is." = true.
Proof.
  split; [|split].
  - intros text. apply any_in_lower. by repeat constructor.
  - intros env filename file_content log.
    destruct (analyze_uploaded_file_shape env filename file_content log)
      as (results & log' & Hrun & Hshape).
    exists results. unfold result_of. rewrite Hrun. split; [done|].
    destruct Hshape as [[e ->]|[cs HF]].
    + constructor; [|constructor]. by exists "Error processing document".
    + clear Hrun. induction HF as [|c r cs rs Hr _ IH]; [constructor|].
      constructor; [|done]. exists c. by destruct Hr as (? & ? & _).
  - by vm_compute.
Qed.

End UploadProperties.

(** ** Properties of grantie.py *)
Section GrantieProperties.
Import PyStr Grantie.

Lemma analyze_warranties_success (env : Env) (text response : string)
    (log : list Outbound) :
  ChatCompletion_create env log (document_request text) = Ok response →
  analyze_warranties_and_guarantees env text log
  = (Ok {| analysis := strip response;
           summary :=
             {| has_warranties :=
                  any_in ["warrant"; "warranty"; "guaranteed"] (lower text);
                has_guarantees :=
                  any_in ["guarantee"; "assure"; "promise"] (lower text);
                risk_level := assess_risk text |} |},
     log ++ [ChatCall (document_request text)]).
Proof.
  intros Hok. unfold analyze_warranties_and_guarantees, try_except, bind, chat, ret.
  by rewrite Hok.
Qed.

(** C6: the risk tier is High when a High-risk term occurs in the text
    (case ignored), else Medium when a Medium-risk term occurs, else
    Low; a text with both a High-risk and a Medium-risk term is High.
    On the success path this tier is the risk_level of the summary. *)
Theorem C6_risk_tier_precedence (text : string) :
  let high := ["disclaim"; "as-is"; "no warranty"; "liability"; "limitation"] in
  let medium := ["limited warranty"; "conditional"; "subject to"] in
  (any_occurs_ci high text → assess_risk text = "High")
  ∧ (¬ any_occurs_ci high text → any_occurs_ci medium text →
     assess_risk text = "Medium")
  ∧ (¬ any_occurs_ci high text → ¬ any_occurs_ci medium text →
     assess_risk text = "Low")
  ∧ (any_occurs_ci high text → any_occurs_ci medium text →
     assess_risk text = "High")
  ∧ (∀ env log response,
       ChatCompletion_create env log (document_request text) = Ok response →
       ∃ w, result_of (analyze_warranties_and_guarantees env text) log = Ok w
            ∧ risk_level (summary w) = assess_risk text).
Proof.
  intros high medium.
  assert (Hh : Forall (fun k => lower k = k) high) by (by repeat constructor).
  assert (Hm : Forall (fun k => lower k = k) medium) by (by repeat constructor).
  pose proof (any_in_lower high text Hh) as Hhigh.
  pose proof (any_in_lower_false high text Hh) as Hnhigh.
  pose proof (any_in_lower medium text Hm) as Hmed.
  pose proof (any_in_lower_false medium text Hm) as Hnmed.
  unfold assess_risk. fold high in Hhigh, Hnhigh. fold medium in Hmed, Hnmed.
  change high_risk_keywords with high. change medium_risk_keywords with medium.
  repeat split.
  - intros H. apply Hhigh in H. by rewrite H.
  - intros H1 H2. apply Hnhigh in H1. apply Hmed in H2. by rewrite H1, H2.
  - intros H1 H2. apply Hnhigh in H1. apply Hnmed in H2. by rewrite H1, H2.
  - intros H _. apply Hhigh in H. by rewrite H.
  - intros env log response Hok. unfold result_of.
    rewrite (analyze_warranties_success _ _ _ _ Hok). by eexists.
Qed.

Lemma C6_risk_tier_precedence_witness :
  any_occurs_ci ["disclaim"; "as-is"; "no warranty"; "liability"; "limitation"]
    "Liability is subject to a limited warranty."
  ∧ any_occurs_ci ["limited warranty"; "conditional"; "subject to"]
      "Liability is subject to a limited warranty."
  ∧ assess_risk "Liability is subject to a limited warranty." = "High".
Proof.
  assert (Hhigh : any_occurs_ci
                    ["disclaim"; "as-is"; "no warranty"; "liability"; "limitation"]
                    "Liability is subject to a limited warranty.").
  { exists "liability". split; [by repeat constructor|].
    by exists "", "Liability", " is subject to a limited warranty.". }
  assert (Hmed : any_occurs_ci ["limited warranty"; "conditional"; "subject to"]
                   "Liability is subject to a limited warranty.").
  { exists "subject to". split; [by repeat constructor|].
    by exists "Liability is ", "subject to", " a limited warranty.". }
  split; [exact Hhigh|]. split; [exact Hmed|].
  exact (proj1 (proj2 (proj2 (proj2
           (C6_risk_tier_precedence "Liability is subject to a limited warranty."))))
           Hhigh Hmed).
Defined.

(** C10: on the success path the summary of
    analyze_warranties_and_guarantees depends on the text alone: two
    runs on the same text, whatever the two successful answers of the
    service are, give the same summary; the answer only fills the
    analysis field. *)
Theorem C10_summary_depends_on_text_only (env1 env2 : Env)
    (log1 log2 : list Outbound) (text response1 response2 : string) :
  ChatCompletion_create env1 log1 (document_request text) = Ok response1 →
  ChatCompletion_create env2 log2 (document_request text) = Ok response2 →
  ∃ w1 w2,
    result_of (analyze_warranties_and_guarantees env1 text) log1 = Ok w1
    ∧ result_of (analyze_warranties_and_guarantees env2 text) log2 = Ok w2
    ∧ summary w1 = summary w2
    ∧ analysis w1 = strip response1
    ∧ analysis w2 = strip response2.
Proof.
  intros H1 H2. unfold result_of.
  rewrite (analyze_warranties_success _ _ _ _ H1).
  rewrite (analyze_warranties_success _ _ _ _ H2).
  by eexists _, _.
Qed.

Lemma C10_summary_depends_on_text_only_witness :
  let env1 := Sample.world (Some "sk-sample") [] (Sample.always "Low risk overall.") in
  let env2 := Sample.world (Some "sk-sample") [] (Sample.always "HIGH RISK! ") in
  ChatCompletion_create env1 [] (document_request Sample.disclaimer)
  = Ok "Low risk overall."
  ∧ ChatCompletion_create env2 [] (document_request Sample.disclaimer)
    = Ok "HIGH RISK! "
  ∧ ∃ w1 w2,
      result_of (analyze_warranties_and_guarantees env1 Sample.disclaimer) [] = Ok w1
      ∧ result_of (analyze_warranties_and_guarantees env2 Sample.disclaimer) [] = Ok w2
      ∧ summary w1 = summary w2
      ∧ analysis w1 = strip "Low risk overall."
      ∧ analysis w2 = strip "HIGH RISK! ".
Proof.
  intros env1 env2. split; [reflexivity|]. split; [reflexivity|].
  exact (C10_summary_depends_on_text_only env1 env2 [] [] Sample.disclaimer
           "Low risk overall." "HIGH RISK! " eq_refl eq_refl).
Defined.

End GrantieProperties.

(** ** Properties of check_warranty_compliance *)
Section ComplianceProperties.
Import PyStr Grantie.

(** One turn of the loop leaves the recommendations as they are or adds
    the advice on time limits at the end. *)
Lemma check_clause_recommendations (issues recs : list string)
    (c : Analyzer.ClauseDict) :
  snd (check_clause (issues, recs) c) = recs
  ∨ snd (check_clause (issues, recs) c) = recs ++ [time_limit_recommendation].
Proof.
  unfold check_clause.
  destruct (contains "warranty" _ && negb (any_in _ _)); simpl; auto.
Qed.

Lemma fold_check_clause_recommendations (l : list Analyzer.ClauseDict) :
  ∀ acc, ∃ added,
    snd (fold_left check_clause l acc) = snd acc ++ added
    ∧ Forall (fun rec => rec = time_limit_recommendation) added.
Proof.
  induction l as [|c l IH]; intros [issues recs].
  - exists []. simpl. by rewrite app_nil_r.
  - change (fold_left check_clause (c :: l) (issues, recs))
      with (fold_left check_clause l (check_clause (issues, recs) c)).
    destruct (IH (check_clause (issues, recs) c)) as (added & -> & HF).
    destruct (check_clause_recommendations issues recs c) as [-> | ->].
    + by exists added.
    + exists (time_limit_recommendation :: added).
      rewrite <- app_assoc. split; [done|]. by constructor.
Qed.

Lemma per_clause_recommendations_are_time_limits (clauses : list Analyzer.ClauseDict) :
  Forall (fun rec => rec = time_limit_recommendation)
    (per_clause_recommendations clauses).
Proof.
  unfold per_clause_recommendations.
  destruct (fold_check_clause_recommendations (warranty_clauses clauses) ([], []))
    as (added & -> & HF).
  done.
Qed.

(** The recommendations of the report, by the number of flagged clauses. *)
Lemma recommendations_cases (clauses : list Analyzer.ClauseDict) :
  recommendations (check_warranty_compliance clauses)
  = match warranty_clauses clauses with
    | [] => [generic_recommendation]
    | _ =>
        if (3 <? length (warranty_clauses clauses))%nat
        then per_clause_recommendations clauses ++ [consistency_recommendation]
        else per_clause_recommendations clauses
    end.
Proof.
  unfold check_warranty_compliance, per_clause_recommendations, warranty_clauses.
  destruct (List.filter flagged clauses) as [|c rest]; [done|].
  destruct (fold_left check_clause (c :: rest) ([], [])) as [issues recs].
  by destruct (3 <? length (c :: rest))%nat.
Qed.

(** C7: when no clause of the input has has_warranty_terms True, the
    report has no issue, total_issues 0 and exactly one recommendation,
    the advice to add clear warranty terms. *)
Theorem C7_no_flagged_clause (clauses : list Analyzer.ClauseDict) :
  Forall (fun c => Analyzer.has_warranty_terms c ≠ Some true) clauses →
  check_warranty_compliance clauses
  = {| compliance_issues := [];
       recommendations := ["Consider adding clear warranty terms for transparency"];
       total_issues := 0 |}.
Proof.
  intros Hnone. unfold check_warranty_compliance.
  assert (Hfilter : List.filter flagged clauses = []).
  { induction Hnone as [|c l Hc _ IH]; [done|].
    simpl. unfold flagged at 1.
    destruct (Analyzer.has_warranty_terms c) as [[|]|]; simpl; done. }
  by rewrite Hfilter.
Qed.

Lemma C7_no_flagged_clause_witness :
  Forall (fun c => Analyzer.has_warranty_terms c ≠ Some true)
    [Sample.plain_clause "Payment is due in thirty days."]
  ∧ check_warranty_compliance [Sample.plain_clause "Payment is due in thirty days."]
    = {| compliance_issues := [];
         recommendations := ["Consider adding clear warranty terms for transparency"];
         total_issues := 0 |}.
Proof.
  assert (Hnone : Forall (fun c => Analyzer.has_warranty_terms c ≠ Some true)
                    [Sample.plain_clause "Payment is due in thirty days."]).
  { constructor; [|constructor]. simpl. discriminate. }
  split; [exact Hnone|].
  exact (C7_no_flagged_clause [Sample.plain_clause "Payment is due in thirty days."] Hnone).
Defined.

(** C8: with more than 3 flagged clauses the recommendations are the
    per-clause recommendations followed by the consistency
    recommendation, which is none of the per-clause ones: it occurs
    exactly once, and last.  With 3 flagged clauses or fewer it does not
    occur. *)
Theorem C8_consistency_recommendation (clauses : list Analyzer.ClauseDict) :
  (consistency_recommendation ∉ per_clause_recommendations clauses)
  ∧ (3 < length (warranty_clauses clauses) →
     recommendations (check_warranty_compliance clauses)
     = per_clause_recommendations clauses ++ [consistency_recommendation])
  ∧ (length (warranty_clauses clauses) ≤ 3 →
     consistency_recommendation ∉ recommendations (check_warranty_compliance clauses)).
Proof.
  assert (Hper : consistency_recommendation ∉ per_clause_recommendations clauses).
  { intros Hin.
    pose proof (per_clause_recommendations_are_time_limits clauses) as HF.
    rewrite Forall_forall in HF. by specialize (HF _ Hin). }
  split; [done|]. rewrite recommendations_cases. split.
  - intros Hmany. destruct (warranty_clauses clauses) as [|c rest] eqn:Hw.
    + simpl in Hmany. lia.
    + by rewrite (proj2 (Nat.ltb_lt _ _) Hmany).
  - intros Hfew. destruct (warranty_clauses clauses) as [|c rest] eqn:Hw.
    + intros Heq%list_elem_of_singleton. by vm_compute in Heq.
    + destruct (3 <? length (c :: rest))%nat eqn:Hlt; [|done].
      apply Nat.ltb_lt in Hlt. lia.
Qed.

Lemma C8_consistency_recommendation_witness :
  3 < length (warranty_clauses Sample.four_flagged)
  ∧ recommendations (check_warranty_compliance Sample.four_flagged)
    = per_clause_recommendations Sample.four_flagged ++ [consistency_recommendation]
  ∧ length (warranty_clauses [Sample.flagged_clause "The warranty covers all parts."]) ≤ 3
  ∧ consistency_recommendation
    ∉ recommendations
        (check_warranty_compliance
           [Sample.flagged_clause "The warranty covers all parts."]).
Proof.
  assert (Hmany : 3 < length (warranty_clauses Sample.four_flagged))
    by (vm_compute; lia).
  assert (Hfew : length (warranty_clauses
                           [Sample.flagged_clause "The warranty covers all parts."]) ≤ 3)
    by (vm_compute; lia).
  split; [exact Hmany|].
  split; [exact (proj1 (proj2 (C8_consistency_recommendation Sample.four_flagged)) Hmany)|].
  split; [exact Hfew|].
  exact (proj2 (proj2 (C8_consistency_recommendation
                         [Sample.flagged_clause "The warranty covers all parts."])) Hfew).
Defined.

End ComplianceProperties.

(** ** Properties of the speech route *)
Section SpeechProperties.
Import PyStr.

(** text_to_speech sends at most one request, and it carries the text
    it was given. *)
Lemma text_to_speech_log (env : Env) (text output_file : string)
    (log : list Outbound) :
  ∃ sent, log_of (Tts.text_to_speech env text output_file) log = log ++ sent
          ∧ (sent = [] ∨ speech_texts sent = [text]).
Proof.
  unfold log_of, Tts.text_to_speech.
  destruct (ELEVENLABS_API_KEY env) as [key|];
    [|exists []; by rewrite app_nil_r; auto].
  destruct (truthy key); [|exists []; by rewrite app_nil_r; auto].
  exists [SpeechCall (Tts.speech_request key text)].
  split; [|by right].
  unfold bind, post, lift, ret, raise.
  destruct (requests_post env log _) as [response|e]; [|done].
  destruct (status_code response =? 200)%nat; [|done].
  by destruct (write_file env output_file _).
Qed.

(** The route forwards the text of the payload as it is. *)
Lemma text_to_speech_endpoint_log (env : Env) (payload_text : option string)
    (log : list Outbound) :
  ∃ sent, log_of (Main.text_to_speech_endpoint env payload_text) log = log ++ sent
          ∧ (sent = [] ∨ speech_texts sent = [default "" payload_text]).
Proof.
  unfold Main.text_to_speech_endpoint.
  destruct (truthy (default "" payload_text)); simpl;
    [|exists []; unfold log_of, ret; simpl; by rewrite app_nil_r; auto].
  unfold log_of, try_except, bind, lift, ret.
  destruct (NamedTemporaryFile env ".mp3" []) as [tmp_audio|e];
    [|exists []; simpl; by rewrite app_nil_r; auto].
  destruct (text_to_speech_log env (default "" payload_text) tmp_audio log)
    as (sent & Hlog & Hsent).
  exists sent. split; [|done]. unfold log_of in Hlog.
  by destruct (Tts.text_to_speech env (default "" payload_text) tmp_audio log)
    as [[audio_path|e] log'].
Qed.

(** C9, as stated, fails: the route sends a text of 501 characters to
    the speech service without shortening it. *)
Lemma C9_endpoint_forwards_long_text :
  len Sample.long_text = 501
  ∧ speech_texts
      (log_of (Main.text_to_speech_endpoint
                 (Sample.world None [] (Sample.always "")) (Some Sample.long_text)) [])
    = [Sample.long_text].
Proof. by vm_compute. Qed.

(** C9, amended: the text is cut to at most 500 characters by the
    caller play_audio of the front end, before the request to
    POST /speak/ is made: every text that reaches the speech service
    through play_audio is text[:500] and has at most 500 characters.
    The route itself forwards the text of its payload unchanged. *)
Theorem C9_play_audio_truncates (env : Env) (text : string) (log : list Outbound) :
  (∃ sent,
      log_of (Frontend.play_audio env text) log = log ++ sent
      ∧ (sent = [] ∨ speech_texts sent = [slice_to 500 text])
      ∧ Forall (fun t => len t ≤ 500) (speech_texts sent))
  ∧ (∀ payload_text,
       ∃ sent,
         log_of (Main.text_to_speech_endpoint env payload_text) log = log ++ sent
         ∧ (sent = [] ∨ speech_texts sent = [default "" payload_text])).
Proof.
  split; [|intros payload_text; apply text_to_speech_endpoint_log].
  unfold Frontend.play_audio.
  destruct (text_to_speech_endpoint_log env (Some (slice_to 500 text)) log)
    as (sent & Hlog & Hsent).
  exists sent. split; [done|]. split; [done|].
  destruct Hsent as [-> | ->]; [constructor|].
  constructor; [|constructor]. apply length_slice_to.
Qed.

End SpeechProperties.

(** ** Requests and failures of the upload pipeline *)
Section UploadRequests.
Import PyStr Analyzer.

Variable env : Env.

Lemma analyze_loop_log_configured (clauses : list string) :
  configured (OPENAI_API_KEY env) = true →
  ∀ acc log,
    log_of (analyze_loop env clauses acc) log
    = log ++ flat_map clause_calls (surviving clauses).
Proof.
  intros Hk. unfold log_of.
  induction clauses as [|c rest IH]; intros acc log.
  - simpl. by rewrite app_nil_r.
  - rewrite surviving_cons, analyze_loop_step.
    destruct (len (strip c) <? 10)%nat; [apply IH|].
    rewrite (analyze_clause_configured _ _ _ Hk). cbv zeta.
    cbn [flat_map]. unfold clause_calls at 1.
    destruct (detect_warranty_terms c).
    + rewrite (grantie_configured _ _ _ Hk), IH. by rewrite <- !app_assoc.
    + rewrite IH. by rewrite <- !app_assoc.
Qed.

(** X1: with a key, the requests sent for a document are, in document
    order, one explanation request per surviving clause, each followed by
    one warranty request exactly when the clause is flagged; nothing else
    is sent. *)
Theorem upload_sends_per_clause_requests (filename : string)
    (file_content : list Byte.byte) (log : list Outbound)
    (tmp_path : string) (clauses : list string) :
  configured (OPENAI_API_KEY env) = true →
  NamedTemporaryFile env ".docx" file_content = Ok tmp_path →
  extract_clauses_from_docx env tmp_path = Ok clauses →
  log_of (analyze_uploaded_file env filename file_content) log
  = log ++ flat_map clause_calls (surviving clauses).
Proof.
  intros Hk Htmp Hdoc. unfold log_of.
  rewrite analyze_uploaded_file_cases, Htmp, Hdoc.
  destruct clauses as [|c rest]; [simpl; by rewrite app_nil_r|].
  pose proof (analyze_loop_log_configured (c :: rest) Hk [] log) as Hlog.
  unfold log_of in Hlog.
  by destruct (analyze_loop env (c :: rest) [] log) as [[results|e] log'].
Qed.

(** X2: without a key no request is ever sent, and a document with a
    surviving clause gives the single record that reports the missing
    key. *)
Theorem upload_without_key (filename : string) (file_content : list Byte.byte)
    (log : list Outbound) :
  configured (OPENAI_API_KEY env) = false →
  log_of (analyze_uploaded_file env filename file_content) log = log
  ∧ ∀ tmp_path clauses,
      NamedTemporaryFile env ".docx" file_content = Ok tmp_path →
      extract_clauses_from_docx env tmp_path = Ok clauses →
      surviving clauses ≠ [] →
      result_of (analyze_uploaded_file env filename file_content) log
      = Ok [{| clause := Some "Error processing document";
               analysis :=
                 Some "Failed to analyze document: OpenAI API key not configured. Please check your .env file.";
               has_warranty_terms := Some false;
               grantie_analysis := None |}].
Proof.
  intros Hk. unfold log_of, result_of. rewrite analyze_uploaded_file_cases. split.
  - destruct (NamedTemporaryFile env ".docx" file_content) as [tmp_path|e]; [|done].
    destruct (extract_clauses_from_docx env tmp_path) as [[|c rest]|e]; [done| |done].
    rewrite (analyze_loop_unconfigured _ _ Hk).
    by destruct (surviving (c :: rest)).
  - intros tmp_path clauses -> -> Hsome.
    destruct clauses as [|c rest]; [done|].
    rewrite (analyze_loop_unconfigured _ _ Hk).
    by destruct (surviving (c :: rest)).
Qed.

(** X3: a document that cannot be stored or read gives one error record
    and no request, whatever the key; for an unreadable document the
    record carries the text of the failure after
    "Failed to analyze document: Failed to read document: ". *)
Theorem upload_ingestion_failure (filename : string)
    (file_content : list Byte.byte) (log : list Outbound) :
  (∀ e, NamedTemporaryFile env ".docx" file_content = Raise e →
        analyze_uploaded_file env filename file_content log
        = (Ok [error_result e], log))
  ∧ (∀ tmp_path e,
       NamedTemporaryFile env ".docx" file_content = Ok tmp_path →
       Document env tmp_path = Raise e →
       analyze_uploaded_file env filename file_content log
       = (Ok [{| clause := Some "Error processing document";
                 analysis :=
                   Some ("Failed to analyze document: Failed to read document: "
                           +:+ exn_str e);
                 has_warranty_terms := Some false;
                 grantie_analysis := None |}], log)).
Proof.
  split.
  - intros e Htmp. by rewrite analyze_uploaded_file_cases, Htmp.
  - intros tmp_path e Htmp Hdoc.
    rewrite analyze_uploaded_file_cases, Htmp.
    unfold extract_clauses_from_docx. rewrite Hdoc.
    unfold error_result. simpl. by rewrite <- str_app_assoc.
Qed.

End UploadRequests.

Lemma upload_sends_per_clause_requests_witness :
  let env := Sample.world (Some "sk-sample") Sample.two_clauses Sample.refuse_first in
  configured (OPENAI_API_KEY env) = true
  ∧ NamedTemporaryFile env ".docx" [] = Ok "/tmp/tmpsample.docx"
  ∧ Analyzer.extract_clauses_from_docx env "/tmp/tmpsample.docx" = Ok Sample.two_clauses
  ∧ log_of (Analyzer.analyze_uploaded_file env "contract.docx" []) []
    = [] ++ flat_map clause_calls (surviving Sample.two_clauses).
Proof.
  intros env.
  split; [reflexivity|]. split; [reflexivity|]. split; [reflexivity|].
  exact (upload_sends_per_clause_requests env "contract.docx" [] []
           "/tmp/tmpsample.docx" Sample.two_clauses eq_refl eq_refl eq_refl).
Defined.

Lemma upload_without_key_witness :
  let env := Sample.world None Sample.two_clauses (Sample.always "fine") in
  configured (OPENAI_API_KEY env) = false
  ∧ log_of (Analyzer.analyze_uploaded_file env "contract.docx" []) [] = [].
Proof.
  intros env. split; [reflexivity|].
  exact (proj1 (upload_without_key env "contract.docx" [] [] eq_refl)).
Defined.

Lemma upload_ingestion_failure_witness :
  let env :=
    {| OPENAI_API_KEY := Some "sk-sample";
       ELEVENLABS_API_KEY := None;
       NamedTemporaryFile := fun _ _ => Ok "/tmp/tmpsample.docx";
       Document := fun _ => Raise (MkExn OtherException "File is not a zip file");
       ChatCompletion_create := Sample.always "fine";
       requests_post := fun _ _ => Ok (MkHttpResponse 200 [] "");
       write_file := fun _ _ => Ok tt |} in
  Document env "/tmp/tmpsample.docx" = Raise (MkExn OtherException "File is not a zip file")
  ∧ Analyzer.analyze_uploaded_file env "notes.txt" [] []
    = (Ok [{| Analyzer.clause := Some "Error processing document";
              Analyzer.analysis :=
                Some ("Failed to analyze document: Failed to read document: "
                        +:+ "File is not a zip file");
              Analyzer.has_warranty_terms := Some false;
              Analyzer.grantie_analysis := None |}], []).
Proof.
  intros env. split; [reflexivity|].
  exact (proj2 (upload_ingestion_failure env "notes.txt" [] [])
           "/tmp/tmpsample.docx" (MkExn OtherException "File is not a zip file")
           eq_refl eq_refl).
Defined.

(** ** Statistics *)
Section StatisticsProperties.
Import PyStr Analyzer.

(** X4: the statistics never divide by zero and never count more flagged
    clauses than clauses: the percentage is the int 0 exactly for the
    empty list, and otherwise it is computed from a count that is at most
    the positive total. *)
Theorem statistics_are_well_formed (clauses_result : list ClauseDict) :
  let stats := get_document_statistics clauses_result in
  total_clauses stats = length clauses_result
  ∧ warranty_related_clauses stats ≤ total_clauses stats
  ∧ (warranty_percentage stats = PercentZero ↔ clauses_result = [])
  ∧ (clauses_result ≠ [] →
     warranty_percentage stats
     = PercentRounded (warranty_related_clauses stats) (total_clauses stats) 2
     ∧ 0 < total_clauses stats).
Proof.
  unfold get_document_statistics. cbv zeta. cbn [total_clauses warranty_related_clauses
    warranty_percentage].
  split; [done|]. split; [apply List.filter_length_le|].
  destruct clauses_result as [|c rest]; [done|].
  cbn [length]. split; [done|]. intros _. split; [done|]. lia.
Qed.

(** X5: on the list analyze_uploaded_file returns, the count of
    warranty-related clauses is the number of records that carry a
    grantie_analysis, and the total is the number of records. *)
Theorem statistics_of_upload (env : Env) (filename : string)
    (file_content : list Byte.byte) (log : list Outbound) :
  ∃ results,
    result_of (analyze_uploaded_file env filename file_content) log = Ok results
    ∧ total_clauses (get_document_statistics results) = length results
    ∧ warranty_related_clauses (get_document_statistics results)
      = length (List.filter (fun r => bool_decide (is_Some (grantie_analysis r))) results).
Proof.
  destruct (analyze_uploaded_file_shape env filename file_content log)
    as (results & log' & Hrun & Hshape).
  exists results. unfold result_of. rewrite Hrun. split; [done|]. split; [done|].
  unfold get_document_statistics. cbn [warranty_related_clauses]. f_equal.
  assert (Hpres : Forall (fun r => is_Some (grantie_analysis r)
                                   ↔ has_warranty_terms r = Some true) results).
  { destruct Hshape as [[e ->]|[cs HF]].
    - constructor; [|constructor]. simpl. split; [by intros [g Hg]|done].
    - clear Hrun. induction HF as [|c r cs rs Hr _ IH]; [constructor|].
      constructor; [|done]. by apply (built_for_presence env c). }
  clear Hrun Hshape. induction Hpres as [|r rs Hr _ IH]; [done|].
  cbn [List.filter]. rewrite IH.
  destruct (has_warranty_terms r) as [[|]|] eqn:Hf; simpl.
  - rewrite bool_decide_eq_true_2; [done|]. by apply Hr.
  - rewrite bool_decide_eq_false_2; [done|]. intros Hs. by apply Hr in Hs.
  - rewrite bool_decide_eq_false_2; [done|]. intros Hs. by apply Hr in Hs.
Qed.

End StatisticsProperties.

Lemma statistics_are_well_formed_witness :
  Sample.four_flagged ≠ []
  ∧ Analyzer.warranty_percentage (Analyzer.get_document_statistics Sample.four_flagged)
    = Analyzer.PercentRounded 4 5 2.
Proof.
  assert (Hne : Sample.four_flagged ≠ []) by discriminate.
  split; [exact Hne|].
  exact (proj1 (proj2 (proj2 (proj2
           (statistics_are_well_formed Sample.four_flagged))) Hne)).
Defined.

(** ** The findings of check_warranty_compliance *)
Section ComplianceFindings.
Import PyStr Grantie.

Lemma clause_issues_cases (c : Analyzer.ClauseDict) :
  clause_issues c
  = (if any_in ["reasonable"; "satisfactory"; "appropriate"] (lower (clause_text c))
     then [vague_issue] else [])
    ++ (if contains "disclaim" (lower (clause_text c))
           && negb (contains "notice" (lower (clause_text c)))
        then [notice_issue] else []).
Proof.
  unfold clause_issues, check_clause, clause_text.
  destruct (any_in _ _); destruct (contains "disclaim" _ && _);
    by destruct (contains "warranty" _ && _).
Qed.

Lemma clause_recommendations_cases (c : Analyzer.ClauseDict) :
  clause_recommendations c
  = if contains "warranty" (lower (clause_text c))
       && negb (any_in ["days"; "months"; "years"; "period"] (lower (clause_text c)))
    then [time_limit_recommendation] else [].
Proof.
  unfold clause_recommendations, check_clause, clause_text.
  destruct (any_in ["reasonable"; "satisfactory"; "appropriate"] _);
    destruct (contains "disclaim" _ && _);
    by destruct (contains "warranty" _ && _).
Qed.

(** One turn of the loop appends the findings of its clause. *)
Lemma check_clause_appends (issues recs : list string) (c : Analyzer.ClauseDict) :
  check_clause (issues, recs) c
  = (issues ++ clause_issues c, recs ++ clause_recommendations c).
Proof.
  unfold clause_issues, clause_recommendations, check_clause.
  destruct (any_in ["reasonable"; "satisfactory"; "appropriate"] _);
    destruct (contains "disclaim" _ && _);
    destruct (contains "warranty" _ && _);
    simpl; by rewrite ?app_nil_r, <- ?app_assoc.
Qed.

Lemma fold_check_clause (l : list Analyzer.ClauseDict) :
  ∀ issues recs,
    fold_left check_clause l (issues, recs)
    = (issues ++ flat_map clause_issues l, recs ++ flat_map clause_recommendations l).
Proof.
  induction l as [|c l IH]; intros issues recs.
  - simpl. by rewrite !app_nil_r.
  - change (fold_left check_clause (c :: l) (issues, recs))
      with (fold_left check_clause l (check_clause (issues, recs) c)).
    rewrite check_clause_appends, IH. cbn [flat_map]. by rewrite <- !app_assoc.
Qed.

(** The report, as a function of the flagged clauses. *)
Lemma report_cases (clauses : list Analyzer.ClauseDict) :
  check_warranty_compliance clauses
  = match warranty_clauses clauses with
    | [] =>
        {| compliance_issues := [];
           recommendations := [generic_recommendation];
           total_issues := 0 |}
    | _ =>
        {| compliance_issues := flat_map clause_issues (warranty_clauses clauses);
           recommendations :=
             flat_map clause_recommendations (warranty_clauses clauses)
             ++ (if (3 <? length (warranty_clauses clauses))%nat
                 then [consistency_recommendation] else []);
           total_issues := length (flat_map clause_issues (warranty_clauses clauses)) |}
    end.
Proof.
  unfold check_warranty_compliance, warranty_clauses.
  destruct (List.filter flagged clauses) as [|c rest]; [done|].
  rewrite fold_check_clause. simpl app at 1 2.
  destruct (3 <? length (c :: rest))%nat; [done|]. by rewrite app_nil_r.
Qed.

Lemma issues_are_flat_map (clauses : list Analyzer.ClauseDict) :
  compliance_issues (check_warranty_compliance clauses)
  = flat_map clause_issues (warranty_clauses clauses).
Proof.
  rewrite report_cases. by destruct (warranty_clauses clauses).
Qed.

Lemma elem_of_flat_map {A B} (f : A → list B) (l : list A) (y : B) :
  y ∈ flat_map f l ↔ ∃ x, x ∈ l ∧ y ∈ f x.
Proof.
  rewrite list_elem_of_In, in_flat_map. split; intros (x & H1 & H2); exists x.
  - by rewrite !list_elem_of_In.
  - by rewrite <- !list_elem_of_In.
Qed.

Lemma elem_of_warranty_clauses (clauses : list Analyzer.ClauseDict)
    (c : Analyzer.ClauseDict) :
  c ∈ warranty_clauses clauses ↔ c ∈ clauses ∧ flagged c = true.
Proof.
  unfold warranty_clauses. by rewrite !list_elem_of_In, filter_In.
Qed.

(** X6: clauses that are not flagged have no influence on the report:
    the report of a list is the report of its flagged clauses. *)
Theorem compliance_ignores_unflagged (clauses : list Analyzer.ClauseDict) :
  check_warranty_compliance clauses
  = check_warranty_compliance (List.filter flagged clauses).
Proof.
  rewrite !report_cases.
  assert (Hidem : warranty_clauses (List.filter flagged clauses) = warranty_clauses clauses).
  { unfold warranty_clauses. induction clauses as [|c l IH]; [done|].
    simpl. destruct (flagged c) eqn:Hc; [|done]. simpl. by rewrite Hc, IH. }
  by rewrite Hidem.
Qed.

(** X7: the issues are reported in clause order, for each flagged clause
    the vague-terms issue before the notice issue; so the issues of a
    concatenation are the issues of its parts, one after the other, and
    total_issues is their number, at most two per flagged clause. *)
Theorem compliance_issues_follow_clause_order (a b : list Analyzer.ClauseDict) :
  compliance_issues (check_warranty_compliance (a ++ b))
  = compliance_issues (check_warranty_compliance a)
    ++ compliance_issues (check_warranty_compliance b)
  ∧ total_issues (check_warranty_compliance a)
    = length (compliance_issues (check_warranty_compliance a))
  ∧ total_issues (check_warranty_compliance a) ≤ 2 * length (warranty_clauses a).
Proof.
  split; [|split].
  - rewrite !issues_are_flat_map. unfold warranty_clauses.
    by rewrite List.filter_app, flat_map_app.
  - rewrite report_cases. by destruct (warranty_clauses a).
  - rewrite report_cases. destruct (warranty_clauses a) as [|c rest] eqn:Hw; [simpl; lia|].
    cbn [total_issues]. generalize (c :: rest). intros l.
    induction l as [|x l IH]; [simpl; lia|].
    cbn [flat_map]. rewrite length_app, clause_issues_cases.
    destruct (any_in _ _); destruct (contains "disclaim" _ && _); simpl; lia.
Qed.

(** X8: the notice issue is reported exactly when some flagged clause
    mentions "disclaim" and nowhere mentions "notice" (case ignored); the
    vague-terms issue exactly when some flagged clause mentions
    reasonable, satisfactory or appropriate. *)
Theorem compliance_issue_triggers (clauses : list Analyzer.ClauseDict) :
  ("Warranty disclaimer may lack proper notice requirements"
     ∈ compliance_issues (check_warranty_compliance clauses)
   ↔ ∃ c, c ∈ clauses ∧ flagged c = true
          ∧ occurs_ci "disclaim" (clause_text c)
          ∧ ¬ occurs_ci "notice" (clause_text c))
  ∧ ("Vague warranty terms found - consider more specific language"
       ∈ compliance_issues (check_warranty_compliance clauses)
     ↔ ∃ c, c ∈ clauses ∧ flagged c = true
            ∧ any_occurs_ci ["reasonable"; "satisfactory"; "appropriate"]
                (clause_text c)).
Proof.
  rewrite issues_are_flat_map, !elem_of_flat_map. split.
  - split.
    + intros (c & Hc & Hin). apply elem_of_warranty_clauses in Hc as [Hc Hf].
      exists c. rewrite clause_issues_cases in Hin.
      destruct (contains "disclaim" _ && negb _) eqn:Hcond.
      * apply andb_true_iff in Hcond as [Hd Hn]. apply negb_true_iff in Hn.
        repeat split; [done..| |].
        -- by apply contains_lower.
        -- intros Hno. apply contains_lower in Hno; [|done]. congruence.
      * rewrite app_nil_r in Hin. destruct (any_in _ _); [|by inversion Hin].
        apply list_elem_of_singleton in Hin. by vm_compute in Hin.
    + intros (c & Hc & Hf & Hd & Hn). exists c.
      split; [by apply elem_of_warranty_clauses|].
      rewrite clause_issues_cases.
      apply contains_lower in Hd; [|done]. rewrite Hd.
      destruct (contains "notice" (lower (clause_text c))) eqn:Hno.
      * exfalso. apply Hn. by apply contains_lower.
      * simpl. apply elem_of_app. right. by apply list_elem_of_singleton.
  - split.
    + intros (c & Hc & Hin). apply elem_of_warranty_clauses in Hc as [Hc Hf].
      exists c. rewrite clause_issues_cases in Hin.
      destruct (any_in ["reasonable"; "satisfactory"; "appropriate"] _) eqn:Hv.
      * repeat split; [done..|]. apply any_in_lower; [|done]. by repeat constructor.
      * simpl in Hin. destruct (contains "disclaim" _ && negb _); [|by inversion Hin].
        apply list_elem_of_singleton in Hin. by vm_compute in Hin.
    + intros (c & Hc & Hf & Hv). exists c.
      split; [by apply elem_of_warranty_clauses|].
      rewrite clause_issues_cases.
      apply any_in_lower in Hv; [|by repeat constructor]. rewrite Hv.
      apply elem_of_app. left. by apply list_elem_of_singleton.
Qed.

(** X9: the advice on time limits is among the recommendations exactly
    when some flagged clause mentions "warranty" and none of days,
    months, years, period (case ignored); there are at most as many
    recommendations as flagged clauses, plus one. *)
Theorem compliance_time_limit_trigger (clauses : list Analyzer.ClauseDict) :
  ("Consider adding specific time limits for warranty coverage"
     ∈ recommendations (check_warranty_compliance clauses)
   ↔ ∃ c, c ∈ clauses ∧ flagged c = true
          ∧ occurs_ci "warranty" (clause_text c)
          ∧ ¬ any_occurs_ci ["days"; "months"; "years"; "period"] (clause_text c))
  ∧ length (recommendations (check_warranty_compliance clauses))
    ≤ length (warranty_clauses clauses) + 1.
Proof.
  rewrite report_cases. split.
  - assert (Hmem : "Consider adding specific time limits for warranty coverage"
                     ∈ flat_map clause_recommendations (warranty_clauses clauses)
                   ↔ ∃ c, c ∈ clauses ∧ flagged c = true
                          ∧ occurs_ci "warranty" (clause_text c)
                          ∧ ¬ any_occurs_ci ["days"; "months"; "years"; "period"]
                                (clause_text c)).
    { rewrite elem_of_flat_map. split.
      - intros (c & Hc & Hin). apply elem_of_warranty_clauses in Hc as [Hc Hf].
        exists c. rewrite clause_recommendations_cases in Hin.
        destruct (contains "warranty" _ && negb _) eqn:Hcond; [|by inversion Hin].
        apply andb_true_iff in Hcond as [Hw Ht]. apply negb_true_iff in Ht.
        repeat split; [done..| |].
        + by apply contains_lower.
        + by apply any_in_lower_false; [repeat constructor|].
      - intros (c & Hc & Hf & Hw & Ht). exists c.
        split; [by apply elem_of_warranty_clauses|].
        rewrite clause_recommendations_cases.
        apply contains_lower in Hw; [|done]. rewrite Hw.
        apply any_in_lower_false in Ht; [|by repeat constructor]. rewrite Ht.
        by apply list_elem_of_singleton. }
    destruct (warranty_clauses clauses) as [|w ws] eqn:Hw.
    + cbn [recommendations]. rewrite <- Hmem. simpl flat_map. split.
      * intros Hin%list_elem_of_singleton. by vm_compute in Hin.
      * by intros Hin%elem_of_nil.
    + cbn [recommendations]. rewrite <- Hmem, elem_of_app.
      split; [|by left]. intros [Hin|Hin]; [done|].
      destruct (3 <? length (w :: ws))%nat; [|by inversion Hin].
      apply list_elem_of_singleton in Hin. by vm_compute in Hin.
  - destruct (warranty_clauses clauses) as [|w ws]; [simpl; lia|].
    cbn [recommendations]. rewrite length_app.
    assert (Hlen : ∀ l, length (flat_map clause_recommendations l) ≤ length l).
    { induction l as [|x l IH]; [done|]. cbn [flat_map]. rewrite length_app.
      rewrite clause_recommendations_cases.
      destruct (contains "warranty" _ && _); simpl; lia. }
    specialize (Hlen (w :: ws)).
    destruct (3 <? length (w :: ws))%nat; simpl in *; lia.
Qed.

End ComplianceFindings.

(** ** Failure policy of the completion wrappers *)
Section WrapperFailures.
Import PyStr.

Lemma assess_risk_values (text : string) :
  Grantie.assess_risk text = "High" ∨ Grantie.assess_risk text = "Medium"
  ∨ Grantie.assess_risk text = "Low".
Proof.
  unfold Grantie.assess_risk.
  destruct (any_in Grantie.high_risk_keywords _); [by left|].
  destruct (any_in Grantie.medium_risk_keywords _); auto.
Qed.

(** X10: analyze_warranties_and_guarantees never raises and sends exactly
    one request.  Its risk_level is "Unknown" exactly when the service
    call failed, and then both flags are False and the analysis is the
    error text; otherwise the level is High, Medium or Low. *)
Theorem document_analysis_never_raises (env : Env) (text : string)
    (log : list Outbound) :
  ∃ w,
    Grantie.analyze_warranties_and_guarantees env text log
    = (Ok w, log ++ [ChatCall (Grantie.document_request text)])
    ∧ (Grantie.risk_level (Grantie.summary w) = "Unknown"
       ↔ ∃ e, ChatCompletion_create env log (Grantie.document_request text) = Raise e)
    ∧ (∀ e, ChatCompletion_create env log (Grantie.document_request text) = Raise e →
            w = {| Grantie.analysis :=
                     "Error analyzing warranties and guarantees: " +:+ exn_str e;
                   Grantie.summary :=
                     {| Grantie.has_warranties := false;
                        Grantie.has_guarantees := false;
                        Grantie.risk_level := "Unknown" |} |})
    ∧ (Grantie.risk_level (Grantie.summary w) ≠ "Unknown" →
       Grantie.risk_level (Grantie.summary w) = Grantie.assess_risk text).
Proof.
  unfold Grantie.analyze_warranties_and_guarantees, try_except, bind, chat, ret.
  destruct (ChatCompletion_create env log (Grantie.document_request text))
    as [response|e] eqn:Hcall.
  - eexists. split; [done|]. cbn [Grantie.summary Grantie.risk_level].
    split; [|split; [done|done]]. split; [|by intros [e He]].
    intros Hunknown.
    destruct (assess_risk_values text) as [H|[H|H]]; rewrite H in Hunknown; done.
  - eexists. split; [done|]. cbn [Grantie.summary Grantie.risk_level].
    split; [split; [by eauto|done]|]. split; [|done].
    intros e' He'. by injection He' as <-.
Qed.

(** X11: of the four wrappers around the completion service, only
    analyze_clause_with_openai can raise, and it raises exactly when the
    key is not configured, before any request; analyze_clause_for_grantie
    then returns its own text, also without a request. *)
Theorem only_the_missing_key_raises (env : Env) (text : string) (log : list Outbound) :
  ((∃ e, result_of (Analyzer.analyze_clause_with_openai env text) log = Raise e)
   ↔ configured (OPENAI_API_KEY env) = false)
  ∧ (configured (OPENAI_API_KEY env) = false →
     Analyzer.analyze_clause_with_openai env text log
     = (Raise (MkExn OtherException
                 "OpenAI API key not configured. Please check your .env file."), log)
     ∧ Analyzer.analyze_clause_for_grantie env text log
       = (Ok "Error: OpenAI API key not configured.", log))
  ∧ (∃ s log', Analyzer.analyze_clause_for_grantie env text log = (Ok s, log'))
  ∧ (∃ s, Summarizer.summarize_text env text log
          = (Ok s, log ++ [ChatCall (Summarizer.summary_request text)]))
  ∧ (∃ w log', Grantie.analyze_warranties_and_guarantees env text log = (Ok w, log')).
Proof.
  split; [|split; [|split; [|split]]].
  - unfold result_of. destruct (configured (OPENAI_API_KEY env)) eqn:Hk.
    + rewrite (analyze_clause_configured _ _ _ Hk). simpl. split; [by intros [e He]|done].
    + rewrite (analyze_clause_unconfigured _ _ _ Hk). simpl. split; [done|by eauto].
  - intros Hk. split; [by apply analyze_clause_unconfigured|].
    unfold Analyzer.analyze_clause_for_grantie. by rewrite Hk.
  - destruct (configured (OPENAI_API_KEY env)) eqn:Hk.
    + rewrite (grantie_configured _ _ _ Hk). by eauto.
    + unfold Analyzer.analyze_clause_for_grantie. rewrite Hk. by eexists _, _.
  - unfold Summarizer.summarize_text, try_except, bind, chat, ret.
    destruct (ChatCompletion_create env log _); by eauto.
  - unfold Grantie.analyze_warranties_and_guarantees, try_except, bind, chat, ret.
    destruct (ChatCompletion_create env log _); by eauto.
Qed.

End WrapperFailures.

Lemma only_the_missing_key_raises_witness :
  let env := Sample.world None [] (Sample.always "fine") in
  configured (OPENAI_API_KEY env) = false
  ∧ Analyzer.analyze_clause_with_openai env Sample.disclaimer []
    = (Raise (MkExn OtherException
                "OpenAI API key not configured. Please check your .env file."), [])
  ∧ Analyzer.analyze_clause_for_grantie env Sample.disclaimer []
    = (Ok "Error: OpenAI API key not configured.", []).
Proof.
  intros env. split; [reflexivity|].
  exact (proj1 (proj2 (only_the_missing_key_raises env Sample.disclaimer [])) eq_refl).
Defined.

Lemma document_analysis_never_raises_witness :
  let env := Sample.world None [] Sample.refuse_first in
  ChatCompletion_create env [] (Grantie.document_request Sample.disclaimer)
  = Raise (MkExn AuthenticationError "Incorrect API key provided")
  ∧ ∃ w,
      Grantie.analyze_warranties_and_guarantees env Sample.disclaimer []
      = (Ok w, [] ++ [ChatCall (Grantie.document_request Sample.disclaimer)])
      ∧ Grantie.risk_level (Grantie.summary w) = "Unknown".
Proof.
  intros env. split; [reflexivity|].
  destruct (document_analysis_never_raises env Sample.disclaimer [])
    as (w & Hrun & Hunknown & _).
  exists w. split; [exact Hrun|].
  apply (proj2 Hunknown). eexists. reflexivity.
Defined.

(** ** The two keyword analyses side by side *)
Section RiskAndTriage.
Import PyStr.

Lemma occurs_ci_inner (a k b s : string) :
  occurs_ci (a +:+ k +:+ b) s → occurs_ci k s.
Proof.
  intros (pre & mid & post & -> & Hmid). rewrite !lower_app in Hmid.
  destruct (lower_split _ _ _ Hmid) as (m1 & m2 & -> & _ & H2).
  destruct (lower_split _ _ _ H2) as (m3 & m4 & -> & H3 & _).
  exists (pre +:+ m1), m3, (m4 +:+ post). split; [|done].
  by rewrite !str_app_assoc.
Qed.


Lemma assess_risk_high (text : string) :
  Grantie.assess_risk text = "High"
  ↔ any_occurs_ci ["disclaim"; "as-is"; "no warranty"; "liability"; "limitation"] text.
Proof.
  rewrite <- (any_in_lower _ text) by (by repeat constructor).
  unfold Grantie.assess_risk.
  change Grantie.high_risk_keywords
    with ["disclaim"; "as-is"; "no warranty"; "liability"; "limitation"].
  destruct (any_in _ (lower text)); [done|].
  by destruct (any_in Grantie.medium_risk_keywords (lower text)).
Qed.

Lemma detect_warranty_terms_spec (text : string) :
  Analyzer.detect_warranty_terms text = true
  ↔ any_occurs_ci Analyzer.warranty_keywords text.
Proof. apply any_in_lower. by repeat constructor. Qed.

(** X12: the per-clause flag and the risk tier use different keyword
    sets, and differ in one way only on the High side: a text with
    disclaim, as-is or liability is both flagged and High; a text that is
    High without being flagged mentions "limitation". *)
Theorem high_risk_and_flag (text : string) :
  (occurs_ci "disclaim" text ∨ occurs_ci "as-is" text ∨ occurs_ci "liability" text →
   Analyzer.detect_warranty_terms text = true ∧ Grantie.assess_risk text = "High")
  ∧ (Grantie.assess_risk text = "High" →
     Analyzer.detect_warranty_terms text = false →
     occurs_ci "limitation" text).
Proof.
  split.
  - intros Hk. split.
    + apply detect_warranty_terms_spec.
      destruct Hk as [H|[H|H]]; eexists; (split; [|exact H]);
        unfold Analyzer.warranty_keywords; by repeat constructor.
    + apply assess_risk_high.
      destruct Hk as [H|[H|H]]; eexists; (split; [|exact H]); by repeat constructor.
  - intros Hhigh Hflag. apply assess_risk_high in Hhigh as (k & Hin & Hk).
    assert (Hnot : ∀ k', k' ∈ Analyzer.warranty_keywords → ¬ occurs_ci k' text).
    { intros k' Hin' Hocc.
      assert (Analyzer.detect_warranty_terms text = true); [|congruence].
      apply detect_warranty_terms_spec. by exists k'. }
    unfold Analyzer.warranty_keywords in Hnot.
    repeat (apply elem_of_cons in Hin as [->|Hin]); [..|by apply elem_of_nil in Hin].
    + exfalso. apply (Hnot "disclaim"); [by repeat constructor|done].
    + exfalso. apply (Hnot "as-is"); [by repeat constructor|done].
    + exfalso. apply (Hnot "warrant"); [by repeat constructor|].
      by apply (occurs_ci_inner "no " "warrant" "y").
    + exfalso. apply (Hnot "liability"); [by repeat constructor|done].
    + done.
Qed.



End RiskAndTriage.

Lemma high_risk_and_flag_witness :
  (occurs_ci "disclaim" Sample.disclaimer ∨ occurs_ci "as-is" Sample.disclaimer
   ∨ occurs_ci "liability" Sample.disclaimer)
  ∧ Analyzer.detect_warranty_terms Sample.disclaimer = true
  ∧ Grantie.assess_risk Sample.disclaimer = "High".
Proof.
  assert (H : occurs_ci "disclaim" Sample.disclaimer).
  { by exists "Seller ", "disclaim", "s all warranties; goods sold as-is.". }
  split; [by left|].
  exact (proj1 (high_risk_and_flag Sample.disclaimer) (or_introl H)).
Defined.

(** ** The routes of main.py *)
Section MainRoutes.
Import PyStr.

Lemma comprehension_subscript (results : list Analyzer.ClauseDict) :
  Forall (fun r => is_Some (Analyzer.clause r)) results →
  Main.comprehension Main.subscript_clause results = Ok (map clause_text results).
Proof.
  induction 1 as [|r rs [t Ht] _ IH]; [done|].
  cbn [Main.comprehension map]. rewrite IH.
  unfold Main.subscript_clause, clause_text. by rewrite Ht.
Qed.

Lemma upload_records_have_text (env : Env) (filename : string)
    (file_content : list Byte.byte) (log : list Outbound) :
  ∃ results log',
    Analyzer.analyze_uploaded_file env filename file_content log = (Ok results, log')
    ∧ Forall (fun r => is_Some (Analyzer.clause r)) results.
Proof.
  destruct (analyze_uploaded_file_shape env filename file_content log)
    as (results & log' & Hrun & Hshape).
  exists results, log'. split; [done|].
  destruct Hshape as [[e ->]|[cs HF]].
  - constructor; [by eexists|constructor].
  - clear Hrun. induction HF as [|c r cs rs Hr _ IH]; [constructor|].
    constructor; [|done]. destruct Hr as (-> & _). by eexists.
Qed.

Lemma full_grantie_analysis_cases (env : Env) (filename : string)
    (content : list Byte.byte) (log log1 : list Outbound)
    (results : list Analyzer.ClauseDict) :
  Analyzer.analyze_uploaded_file env filename content log = (Ok results, log1) →
  Forall (fun r => is_Some (Analyzer.clause r)) results →
  Main.full_grantie_analysis env filename content log
  = match Grantie.analyze_warranties_and_guarantees env
            (String.concat " " (map clause_text results)) log1 with
    | (Ok w, log2) =>
        (Ok {| Main.clauses := results;
               Main.warranty_analysis := w;
               Main.compliance := Grantie.check_warranty_compliance results;
               Main.filename := filename |}, log2)
    | (Raise e, log2) => (Raise e, log2)
    end.
Proof.
  intros Hrun Htext. unfold Main.full_grantie_analysis, bind at 1. rewrite Hrun.
  unfold bind at 1, lift. rewrite (comprehension_subscript _ Htext).
  unfold bind, ret.
  by destruct (Grantie.analyze_warranties_and_guarantees env _ log1) as [[w|e] log2].
Qed.

(** X13: the full analysis never raises.  It returns the records of
    analyze_uploaded_file, the compliance report of these records and the
    file name; after the per-clause requests it sends exactly one more
    request, for the clause texts of the records joined by single
    spaces. *)
Theorem full_analysis_never_raises (env : Env) (filename : string)
    (content : list Byte.byte) (log : list Outbound) :
  ∃ results log1 w,
    Analyzer.analyze_uploaded_file env filename content log = (Ok results, log1)
    ∧ Main.full_grantie_analysis env filename content log
      = (Ok {| Main.clauses := results;
               Main.warranty_analysis := w;
               Main.compliance := Grantie.check_warranty_compliance results;
               Main.filename := filename |},
         log1 ++ [ChatCall (Grantie.document_request
                              (String.concat " " (map clause_text results)))])
    ∧ result_of (Grantie.analyze_warranties_and_guarantees env
                   (String.concat " " (map clause_text results))) log1 = Ok w.
Proof.
  destruct (upload_records_have_text env filename content log)
    as (results & log1 & Hrun & Htext).
  rewrite (full_grantie_analysis_cases _ _ _ _ _ _ Hrun Htext).
  exists results, log1.
  unfold result_of, Grantie.analyze_warranties_and_guarantees, try_except, bind, chat, ret.
  destruct (ChatCompletion_create env log1 _); by eexists.
Qed.


(** X15: without a key, the full analysis of a document with a surviving
    clause still calls the completion service once: the document-level
    analysis is asked about the text "Error processing document" of the
    error record, and the compliance report is the one for no flagged
    clause. *)
Theorem full_analysis_without_key (env : Env) (filename : string)
    (content : list Byte.byte) (log : list Outbound)
    (tmp_path : string) (clauses : list string) :
  configured (OPENAI_API_KEY env) = false →
  NamedTemporaryFile env ".docx" content = Ok tmp_path →
  Analyzer.extract_clauses_from_docx env tmp_path = Ok clauses →
  surviving clauses ≠ [] →
  log_of (Main.full_grantie_analysis env filename content) log
  = log ++ [ChatCall (Grantie.document_request "Error processing document")]
  ∧ ∃ full,
      result_of (Main.full_grantie_analysis env filename content) log = Ok full
      ∧ Main.clauses full
        = [Analyzer.error_result
             (MkExn OtherException
                "OpenAI API key not configured. Please check your .env file.")]
      ∧ Main.compliance full
        = {| Grantie.compliance_issues := [];
             Grantie.recommendations :=
               ["Consider adding clear warranty terms for transparency"];
             Grantie.total_issues := 0 |}.
Proof.
  intros Hk Htmp Hdoc Hsome.
  assert (Hrun : Analyzer.analyze_uploaded_file env filename content log
                 = (Ok [Analyzer.error_result
                          (MkExn OtherException
                             "OpenAI API key not configured. Please check your .env file.")],
                    log)).
  { rewrite analyze_uploaded_file_cases, Htmp, Hdoc.
    destruct clauses as [|c rest]; [done|].
    rewrite (analyze_loop_unconfigured _ _ Hk).
    by destruct (surviving (c :: rest)). }
  unfold log_of, result_of.
  rewrite (full_grantie_analysis_cases _ _ _ _ _ _ Hrun);
    [|constructor; [by eexists|constructor]].
  unfold Grantie.analyze_warranties_and_guarantees, try_except, bind, chat, ret.
  cbn [map clause_text Analyzer.error_result Analyzer.clause default String.concat].
  destruct (ChatCompletion_create env log _); simpl; (split; [done|]); by eexists.
Qed.

(** X16: the guards of the JSON routes.  /grantie/analyze/ answers a
    missing or empty text with its error, without a request, and any
    other text with an analysis, after one request; /grantie/compliance/
    answers with its error exactly for a missing or empty list;
    /summarize/ has no guard and sends its request also for a missing
    text. *)
Theorem json_route_guards (env : Env) (log : list Outbound) :
  (∀ payload_text,
      default "" payload_text = "" →
      Main.analyze_warranties env payload_text log
      = (Ok (Main.WarrantiesErrorJson "No text provided for analysis"), log))
  ∧ (∀ text,
       text ≠ "" →
       ∃ w, Main.analyze_warranties env (Some text) log
            = (Ok (Main.GrantieAnalysisJson w),
               log ++ [ChatCall (Grantie.document_request text)]))
  ∧ (∀ payload_clauses,
       Main.check_compliance payload_clauses
       = if bool_decide (default [] payload_clauses = [])
         then Main.ComplianceErrorJson "No clauses provided for compliance check"
         else Main.ComplianceJson
                (Grantie.check_warranty_compliance (default [] payload_clauses)))
  ∧ (∃ summary,
       Main.summarize_document env None log
       = (Ok summary, log ++ [ChatCall (Summarizer.summary_request "")])).
Proof.
  split; [|split; [|split]].
  - intros payload_text Hempty. unfold Main.analyze_warranties. by rewrite Hempty.
  - intros text Hne. unfold Main.analyze_warranties. cbv zeta.
    change (default "" (Some text)) with text.
    destruct text as [|ch text]; [done|]. cbn [truthy negb].
    unfold Grantie.analyze_warranties_and_guarantees, try_except, bind, chat, ret.
    destruct (ChatCompletion_create env log
                (Grantie.document_request (String ch text))); by eexists.
  - intros payload_clauses. unfold Main.check_compliance.
    by destruct (default [] payload_clauses).
  - unfold Main.summarize_document, Summarizer.summarize_text, try_except, bind, chat, ret.
    cbv zeta. change (default "" None) with "".
    destruct (ChatCompletion_create env log (Summarizer.summary_request ""));
      by eexists.
Qed.

End MainRoutes.


Lemma full_analysis_without_key_witness :
  let env := Sample.world None Sample.two_clauses (Sample.always "fine") in
  configured (OPENAI_API_KEY env) = false
  ∧ NamedTemporaryFile env ".docx" [] = Ok "/tmp/tmpsample.docx"
  ∧ Analyzer.extract_clauses_from_docx env "/tmp/tmpsample.docx" = Ok Sample.two_clauses
  ∧ surviving Sample.two_clauses ≠ []
  ∧ log_of (Main.full_grantie_analysis env "contract.docx" []) []
    = [] ++ [ChatCall (Grantie.document_request "Error processing document")].
Proof.
  intros env.
  assert (Hsome : surviving Sample.two_clauses ≠ []) by (by vm_compute).
  split; [reflexivity|]. split; [reflexivity|]. split; [reflexivity|].
  split; [exact Hsome|].
  exact (proj1 (full_analysis_without_key env "contract.docx" [] []
                  "/tmp/tmpsample.docx" Sample.two_clauses
                  eq_refl eq_refl eq_refl Hsome)).
Defined.

Lemma json_route_guards_witness :
  let env := Sample.world None [] (Sample.always "fine") in
  default "" (Some "") = ""
  ∧ Main.analyze_warranties env (Some "") []
    = (Ok (Main.WarrantiesErrorJson "No text provided for analysis"), [])
  ∧ Sample.disclaimer ≠ ""
  ∧ ∃ w, Main.analyze_warranties env (Some Sample.disclaimer) []
         = (Ok (Main.GrantieAnalysisJson w),
            [] ++ [ChatCall (Grantie.document_request Sample.disclaimer)]).
Proof.
  intros env.
  assert (Hne : Sample.disclaimer ≠ "") by discriminate.
  split; [reflexivity|].
  split; [exact (proj1 (json_route_guards env []) (Some "") eq_refl)|].
  split; [exact Hne|].
  exact (proj1 (proj2 (json_route_guards env [])) Sample.disclaimer Hne).
Defined.

(** ** Speech synthesis *)
Section SpeechFailures.
Import PyStr.

(** X17: without an ElevenLabs key text_to_speech raises its ValueError
    before any request, and the /speak/ route turns it into its error
    answer. *)
Theorem speech_without_key (env : Env) (text output_file : string)
    (log : list Outbound) :
  configured (ELEVENLABS_API_KEY env) = false →
  Tts.text_to_speech env text output_file log
  = (Raise (MkExn ValueError "Missing ELEVENLABS_API_KEY in .env"), log)
  ∧ (text ≠ "" →
     ∀ tmp_audio,
       NamedTemporaryFile env ".mp3" [] = Ok tmp_audio →
       Main.text_to_speech_endpoint env (Some text) log
       = (Ok (Main.ErrorJson
                "TTS generation failed: Missing ELEVENLABS_API_KEY in .env"), log)).
Proof.
  intros Hk.
  assert (Htts : ∀ out, Tts.text_to_speech env text out log
                        = (Raise (MkExn ValueError "Missing ELEVENLABS_API_KEY in .env"), log)).
  { intros out. unfold Tts.text_to_speech.
    destruct (ELEVENLABS_API_KEY env) as [key|]; [|done].
    simpl in Hk. by rewrite Hk. }
  split; [apply Htts|].
  intros Hne tmp_audio Htmp. unfold Main.text_to_speech_endpoint. cbv zeta.
  change (default "" (Some text)) with text.
  destruct text as [|ch text]; [done|]. cbn [truthy negb].
  unfold try_except, bind, lift, ret. by rewrite Htmp, Htts.
Qed.

(** X18: with a key, text_to_speech sends exactly one request; it returns
    the output path only for an answer with status 200 whose bytes could
    be written, and for any other status it raises "TTS failed: " with
    the status and the body of the answer. *)
Theorem speech_status_handling (env : Env) (key text output_file : string)
    (log : list Outbound) :
  ELEVENLABS_API_KEY env = Some key →
  key ≠ "" →
  log_of (Tts.text_to_speech env text output_file) log
  = log ++ [SpeechCall (Tts.speech_request key text)]
  ∧ (∀ path, result_of (Tts.text_to_speech env text output_file) log = Ok path →
             path = output_file
             ∧ ∃ response,
                 requests_post env log (Tts.speech_request key text) = Ok response
                 ∧ status_code response = 200
                 ∧ write_file env output_file (response_content response) = Ok tt)
  ∧ (∀ response,
       requests_post env log (Tts.speech_request key text) = Ok response →
       status_code response ≠ 200 →
       result_of (Tts.text_to_speech env text output_file) log
       = Raise (MkExn OtherException
                  ("TTS failed: " +:+ Tts.str_of_nat (status_code response)
                     +:+ " - " +:+ response_text response))).
Proof.
  intros Hkey Hne. unfold log_of, result_of, Tts.text_to_speech. rewrite Hkey.
  destruct key as [|ch key]; [done|]. cbn [truthy].
  unfold bind, post, lift, ret, raise.
  destruct (requests_post env log _) as [response|e] eqn:Hpost.
  - destruct (status_code response =? 200)%nat eqn:Hstatus.
    + apply Nat.eqb_eq in Hstatus.
      destruct (write_file env output_file _) as [[]|e] eqn:Hwrite; simpl.
      * split; [done|]. split.
        -- intros path [= <-]. split; [done|]. by exists response.
        -- intros response' [= <-] Hbad. done.
      * split; [done|]. split; [done|]. intros response' [= <-] Hbad. done.
    + simpl. split; [done|]. split; [done|]. by intros response' [= <-] _.
  - simpl. split; [done|]. split; done.
Qed.

(** X19: the /speak/ route never raises.  A missing or empty text is
    answered with "No text provided for TTS", without a request; an
    audio file is answered only after the speech service returned status
    200, with media type audio/mpeg and the name speech.mp3. *)
Theorem speak_route_never_raises (env : Env) (payload_text : option string)
    (log : list Outbound) :
  ∃ answer log',
    Main.text_to_speech_endpoint env payload_text log = (Ok answer, log')
    ∧ (default "" payload_text = "" →
       answer = Main.ErrorJson "No text provided for TTS" ∧ log' = log)
    ∧ (∀ path media_type name,
         answer = Main.FileResponse path media_type name →
         media_type = "audio/mpeg" ∧ name = "speech.mp3"
         ∧ NamedTemporaryFile env ".mp3" [] = Ok path
         ∧ ∃ key response,
             ELEVENLABS_API_KEY env = Some key
             ∧ requests_post env log
                 (Tts.speech_request key (default "" payload_text)) = Ok response
             ∧ status_code response = 200).
Proof.
  unfold Main.text_to_speech_endpoint. cbv zeta.
  destruct (default "" payload_text) as [|ch text] eqn:Htext.
  { cbn [truthy negb]. unfold ret. eexists _, _. split; [done|]. split; done. }
  cbn [truthy negb]. unfold try_except, bind, lift, ret.
  destruct (NamedTemporaryFile env ".mp3" []) as [tmp_audio|e] eqn:Htmp;
    [|eexists _, _; split; [done|]; split; done].
  unfold Tts.text_to_speech.
  destruct (ELEVENLABS_API_KEY env) as [key|] eqn:Hkey;
    [|eexists _, _; split; [done|]; split; done].
  destruct (truthy key); [|eexists _, _; split; [done|]; split; done].
  unfold bind, post, lift, ret, raise.
  destruct (requests_post env log _) as [response|e] eqn:Hpost;
    [|eexists _, _; split; [done|]; split; done].
  destruct (status_code response =? 200)%nat eqn:Hstatus;
    [|eexists _, _; split; [done|]; split; done].
  apply Nat.eqb_eq in Hstatus.
  destruct (write_file env tmp_audio _) as [[]|e];
    [|eexists _, _; split; [done|]; split; done].
  eexists _, _. split; [done|]. split; [done|].
  intros path media_type name [= <- <- <-]. repeat split; [done..|].
  by exists key, response.
Qed.

End SpeechFailures.

Lemma speech_without_key_witness :
  let env :=
    {| OPENAI_API_KEY := None;
       ELEVENLABS_API_KEY := None;
       NamedTemporaryFile := fun _ _ => Ok "/tmp/tmpsample.mp3";
       Document := fun _ => Ok [];
       ChatCompletion_create := Sample.always "fine";
       requests_post := fun _ _ => Ok (MkHttpResponse 200 [] "");
       write_file := fun _ _ => Ok tt |} in
  configured (ELEVENLABS_API_KEY env) = false
  ∧ Tts.text_to_speech env "Read this." "output.mp3" []
    = (Raise (MkExn ValueError "Missing ELEVENLABS_API_KEY in .env"), []).
Proof.
  intros env. split; [reflexivity|].
  exact (proj1 (speech_without_key env "Read this." "output.mp3" [] eq_refl)).
Defined.

Lemma speech_status_handling_witness :
  let env :=
    {| OPENAI_API_KEY := None;
       ELEVENLABS_API_KEY := Some "xi-sample";
       NamedTemporaryFile := fun _ _ => Ok "/tmp/tmpsample.mp3";
       Document := fun _ => Ok [];
       ChatCompletion_create := Sample.always "fine";
       requests_post := fun _ _ => Ok (MkHttpResponse 401 [] "Unauthorized");
       write_file := fun _ _ => Ok tt |} in
  ELEVENLABS_API_KEY env = Some "xi-sample"
  ∧ "xi-sample" ≠ ""
  ∧ requests_post env [] (Tts.speech_request "xi-sample" "Read this.")
    = Ok (MkHttpResponse 401 [] "Unauthorized")
  ∧ 401 ≠ 200
  ∧ result_of (Tts.text_to_speech env "Read this." "output.mp3") []
    = Raise (MkExn OtherException
               ("TTS failed: " +:+ Tts.str_of_nat 401 +:+ " - " +:+ "Unauthorized")).
Proof.
  intros env.
  assert (Hne : "xi-sample" ≠ "") by discriminate.
  assert (Hbad : 401 ≠ 200) by discriminate.
  split; [reflexivity|]. split; [exact Hne|]. split; [reflexivity|].
  split; [exact Hbad|].
  exact (proj2 (proj2 (speech_status_handling env "xi-sample" "Read this."
                         "output.mp3" [] eq_refl Hne))
           (MkHttpResponse 401 [] "Unauthorized") eq_refl Hbad).
Defined.

(** ** The clauses that the segmenter yields *)
Section ExtractedClauses.
Import PyStr.

Lemma rev_app_append (s acc : string) :
  String.rev_app s acc = String.rev_app s "" +:+ acc.
Proof.
  revert acc. induction s as [|a s IH]; intros acc; [done|].
  cbn [String.rev_app]. rewrite (IH (String a acc)), (IH (String a "")).
  by rewrite str_app_assoc.
Qed.

Lemma rev_cons (a : ascii) (s : string) :
  String.rev (String a s) = String.rev s +:+ String a "".
Proof. unfold String.rev. cbn [String.rev_app]. apply rev_app_append. Qed.

Lemma rev_append (s t : string) :
  String.rev (s +:+ t) = String.rev t +:+ String.rev s.
Proof.
  induction s as [|a s IH].
  - change ("" +:+ t) with t. by rewrite str_app_nil_r.
  - rewrite str_app_cons, !rev_cons, IH. by rewrite str_app_assoc.
Qed.

Lemma rev_involutive (s : string) : String.rev (String.rev s) = s.
Proof.
  induction s as [|a s IH]; [done|].
  by rewrite rev_cons, rev_append, IH.
Qed.

Lemma lstrip_split (s : string) : ∃ ws, s = ws +:+ lstrip s.
Proof.
  induction s as [|a s [ws IH]]; [by exists ""|].
  cbn [lstrip]. destruct (isspace a); [|by exists ""].
  exists (String a ws). by rewrite str_app_cons, <- IH.
Qed.

Lemma lstrip_idempotent (s : string) : lstrip (lstrip s) = lstrip s.
Proof.
  induction s as [|a s IH]; [done|].
  cbn [lstrip]. destruct (isspace a) eqn:Ha; [done|].
  cbn [lstrip]. by rewrite Ha.
Qed.

Lemma length_lstrip (s : string) : len (lstrip s) ≤ len s.
Proof.
  unfold len. induction s as [|a s IH]; [done|].
  cbn [lstrip]. destruct (isspace a); simpl; lia.
Qed.

(** What starts a string without leading white space has none either. *)
Lemma lstrip_fixed_prefix (t w : string) :
  lstrip (t +:+ w) = t +:+ w → lstrip t = t.
Proof.
  destruct t as [|a t]; [done|].
  rewrite str_app_cons. cbn [lstrip]. destruct (isspace a); [|done].
  intros H. pose proof (length_lstrip (t +:+ w)) as Hlen.
  rewrite H in Hlen. unfold len in Hlen. simpl in Hlen. lia.
Qed.

Lemma strip_idempotent (s : string) : strip (strip s) = strip s.
Proof.
  unfold strip at 2 3, rstrip.
  set (u := lstrip s). set (v := lstrip (String.rev u)).
  assert (Hl : lstrip (String.rev v) = String.rev v).
  { destruct (lstrip_split (String.rev u)) as [ws Hws]. fold v in Hws.
    apply (lstrip_fixed_prefix _ (String.rev ws)).
    rewrite <- rev_append, <- Hws, rev_involutive. apply lstrip_idempotent. }
  unfold strip, rstrip. rewrite Hl, rev_involutive.
  unfold v. by rewrite lstrip_idempotent.
Qed.

Lemma extract_clauses_trimmed (env : Env) (file_path : string)
    (clauses : list string) :
  Analyzer.extract_clauses_from_docx env file_path = Ok clauses →
  Forall (fun c => c ≠ "" ∧ strip c = c) clauses.
Proof.
  unfold Analyzer.extract_clauses_from_docx.
  destruct (Document env file_path) as [paragraphs|e]; [|done].
  intros [= <-].
  induction paragraphs as [|p ps IH]; [constructor|].
  cbn [List.filter]. destruct (truthy (strip p)) eqn:Hp; [|done].
  constructor; [|done]. split; [|apply strip_idempotent].
  intros Hempty. by rewrite Hempty in Hp.
Qed.

(** X20: every clause that extract_clauses_from_docx yields is non-empty
    and has no white space at either end (stripping it again changes
    nothing), so the length test of the loop is a test on the length of
    the clause itself: a clause is analysed exactly when it has at least
    10 characters. *)
Theorem extracted_clauses_are_trimmed (env : Env) (file_path : string)
    (clauses : list string) :
  Analyzer.extract_clauses_from_docx env file_path = Ok clauses →
  Forall (fun c => c ≠ "" ∧ strip c = c) clauses
  ∧ surviving clauses = List.filter (fun c => (10 <=? len c)%nat) clauses.
Proof.
  intros Hdoc. pose proof (extract_clauses_trimmed env file_path clauses Hdoc) as Htrim.
  split; [done|]. clear Hdoc.
  induction Htrim as [|c cs [_ Hc] _ IH]; [done|].
  rewrite surviving_cons, IH. cbn [List.filter]. rewrite Hc.
  destruct (len c <? 10)%nat eqn:Hlt.
  - apply Nat.ltb_lt in Hlt. by rewrite (proj2 (Nat.leb_gt _ _) Hlt).
  - apply Nat.ltb_ge in Hlt. by rewrite (proj2 (Nat.leb_le _ _) Hlt).
Qed.

End ExtractedClauses.

Lemma extracted_clauses_are_trimmed_witness :
  let env := Sample.world None Sample.short_paragraphs (Sample.always "fine") in
  Analyzer.extract_clauses_from_docx env "/tmp/tmpsample.docx" = Ok ["Hi"; "Page 2"]
  ∧ Forall (fun c => c ≠ "" ∧ PyStr.strip c = c) ["Hi"; "Page 2"]
  ∧ surviving ["Hi"; "Page 2"]
    = List.filter (fun c => (10 <=? PyStr.len c)%nat) ["Hi"; "Page 2"].
Proof.
  intros env. split; [reflexivity|].
  exact (extracted_clauses_are_trimmed env "/tmp/tmpsample.docx" ["Hi"; "Page 2"] eq_refl).
Defined.

(** ** The rule-based mode (analyzer_free.py, main_free.py) *)
Section FreeMode.
Import PyStr.

Lemma free_loop_is_map (clauses : list string) :
  ∀ results,
    AnalyzerFree.analyze_loop clauses results
    = results
      ++ map free_record
           (List.filter (fun c => negb (len (strip c) <? 20)%nat) clauses).
Proof.
  induction clauses as [|c rest IH]; intros results.
  - simpl. by rewrite app_nil_r.
  - cbn [AnalyzerFree.analyze_loop List.filter].
    destruct (len (strip c) <? 20)%nat; [apply IH|].
    cbn [negb map]. rewrite IH, <- app_assoc. cbn [app]. do 2 f_equal.
    unfold free_record, Analyzer.detect_warranty_terms.
    change AnalyzerFree.warranty_keywords with Analyzer.warranty_keywords.
    by destruct (any_in Analyzer.warranty_keywords (lower c)).
Qed.

Lemma filter_trimmed (n : nat) (clauses : list string) :
  Forall (fun c => c ≠ "" ∧ strip c = c) clauses →
  List.filter (fun c => negb (len (strip c) <? n)%nat) clauses
  = List.filter (fun c => (n <=? len c)%nat) clauses.
Proof.
  induction 1 as [|c cs [_ Hc] _ IH]; [done|].
  cbn [List.filter]. rewrite IH, Hc.
  destruct (len c <? n)%nat eqn:Hlt.
  - apply Nat.ltb_lt in Hlt. by rewrite (proj2 (Nat.leb_gt _ _) Hlt).
  - apply Nat.ltb_ge in Hlt. by rewrite (proj2 (Nat.leb_le _ _) Hlt).
Qed.

(** X21: the rule-based analyze_uploaded_file needs no key and no
    service: for a document that yields clauses, it returns one record per
    clause of at least 20 characters, in document order, each with the
    flag of its text and with a grantie_analysis exactly when flagged;
    for a document that yields none, the single error record. *)
Theorem free_upload_records (env : Env) (filename : string)
    (file_content : list Byte.byte) (tmp_path : string) (clauses : list string) :
  NamedTemporaryFile env ".docx" file_content = Ok tmp_path →
  Analyzer.extract_clauses_from_docx env tmp_path = Ok clauses →
  AnalyzerFree.analyze_uploaded_file env filename file_content
  = match clauses with
    | [] => [Analyzer.error_result
               (MkExn OtherException "No readable content found in the document")]
    | _ => map free_record (List.filter (fun c => (20 <=? len c)%nat) clauses)
    end.
Proof.
  intros Htmp Hdoc. unfold AnalyzerFree.analyze_uploaded_file. rewrite Htmp, Hdoc.
  destruct clauses as [|c rest]; [done|].
  rewrite free_loop_is_map. cbn [app].
  by rewrite (filter_trimmed 20 _ (extract_clauses_trimmed _ _ _ Hdoc)).
Qed.

Lemma built_for_keys (env : Env) (cs : list string) (rs : list Analyzer.ClauseDict) :
  Forall2 (built_for env) cs rs →
  map record_key (List.filter (fun r => (20 <=? len (clause_text r))%nat) rs)
  = map record_key (map free_record (List.filter (fun c => (20 <=? len c)%nat) cs)).
Proof.
  induction 1 as [|c r cs rs (Hc & Hf & _) _ IH]; [done|].
  cbn [List.filter]. unfold clause_text at 1. rewrite Hc. cbn [default from_option id].
  destruct (20 <=? len c)%nat; [|done].
  cbn [map]. rewrite IH. f_equal. unfold record_key, free_record. simpl.
  by rewrite Hc, Hf.
Qed.

Lemma filter_surviving_20 (clauses : list string) :
  Forall (fun c => c ≠ "" ∧ strip c = c) clauses →
  List.filter (fun c => (20 <=? len c)%nat) (surviving clauses)
  = List.filter (fun c => (20 <=? len c)%nat) clauses.
Proof.
  induction 1 as [|c cs [_ Hc] _ IH]; [done|].
  rewrite surviving_cons, Hc. cbn [List.filter].
  destruct (len c <? 10)%nat eqn:Hlt.
  - apply Nat.ltb_lt in Hlt. rewrite IH.
    by rewrite (proj2 (Nat.leb_gt 20 (len c))) by lia.
  - cbn [List.filter]. by rewrite IH.
Qed.

(** X22: the two modes agree on what they share.  With a key, the
    records of the rule-based mode are, by clause text and flag, the
    records of the standard mode whose clause text has at least 20
    characters, in the same order. *)
Theorem free_mode_agrees_with_standard_mode (env : Env) (filename : string)
    (file_content : list Byte.byte) (log : list Outbound) :
  configured (OPENAI_API_KEY env) = true →
  ∃ standard,
    result_of (Analyzer.analyze_uploaded_file env filename file_content) log
    = Ok standard
    ∧ map record_key (AnalyzerFree.analyze_uploaded_file env filename file_content)
      = map record_key
          (List.filter (fun r => (20 <=? len (clause_text r))%nat) standard).
Proof.
  intros Hk. unfold result_of, AnalyzerFree.analyze_uploaded_file.
  rewrite analyze_uploaded_file_cases.
  destruct (NamedTemporaryFile env ".docx" file_content) as [tmp_path|e];
    [|by eexists].
  destruct (Analyzer.extract_clauses_from_docx env tmp_path) as [[|c rest]|e] eqn:Hdoc;
    [by eexists| |by eexists].
  destruct (analyze_loop_configured env (c :: rest) Hk log)
    as (standard & log' & -> & HF).
  exists standard. split; [done|].
  pose proof (extract_clauses_trimmed _ _ _ Hdoc) as Htrim.
  rewrite (built_for_keys env _ _ HF), (filter_surviving_20 _ Htrim).
  rewrite free_loop_is_map. cbn [app].
  by rewrite (filter_trimmed 20 _ Htrim).
Qed.

(** X23: the rule-based document analysis is never more alarming than
    the keyword summary of the standard one: when its flags are set, or
    its risk level is High, so are those of a successful
    analyze_warranties_and_guarantees on the same text; its Medium is
    never a Low there; and it never answers Unknown. *)
Theorem free_summary_is_conservative (env : Env) (log : list Outbound)
    (text response : string) :
  ChatCompletion_create env log (Grantie.document_request text) = Ok response →
  ∃ w,
    result_of (Grantie.analyze_warranties_and_guarantees env text) log = Ok w
    ∧ let free := Grantie.summary (MainFree.simple_warranty_analysis text) in
      let paid := Grantie.summary w in
      (Grantie.has_warranties free = true → Grantie.has_warranties paid = true)
      ∧ (Grantie.has_guarantees free = true → Grantie.has_guarantees paid = true)
      ∧ (Grantie.risk_level free = "High" → Grantie.risk_level paid = "High")
      ∧ (Grantie.risk_level free = "Medium" → Grantie.risk_level paid ≠ "Low")
      ∧ Grantie.risk_level free ≠ "Unknown".
Proof.
  intros Hok. unfold result_of. rewrite (analyze_warranties_success _ _ _ _ Hok).
  eexists. split; [done|]. cbv zeta.
  unfold MainFree.simple_warranty_analysis.
  cbn [Grantie.summary Grantie.has_warranties Grantie.has_guarantees Grantie.risk_level].
  split; [|split; [|split; [|split]]].
  - destruct (contains "warrant" (lower text)) eqn:Hw; [|done]. intros _.
    cbn [any_in existsb]. by rewrite Hw.
  - destruct (contains "guarantee" (lower text)) eqn:Hg; [|done]. intros _.
    cbn [any_in existsb]. by rewrite Hg.
  - destruct (any_in ["disclaim"; "as-is"; "no warranty"; "limitation of liability"]
                (lower text)) eqn:Hhigh.
    + intros _. apply assess_risk_high.
      apply any_in_lower in Hhigh as (k & Hin & Hocc); [|by repeat constructor].
      repeat (apply elem_of_cons in Hin as [->|Hin]); [..|by apply elem_of_nil in Hin].
      * exists "disclaim". split; [by repeat constructor|done].
      * exists "as-is". split; [by repeat constructor|done].
      * exists "no warranty". split; [by repeat constructor|done].
      * exists "liability". split; [by repeat constructor|].
        by apply (occurs_ci_inner "limitation of " "liability" "").
    + by destruct (any_in ["limited warranty"; "conditional"] (lower text)).
  - destruct (any_in ["disclaim"; "as-is"; "no warranty"; "limitation of liability"]
                (lower text)); [done|].
    destruct (any_in ["limited warranty"; "conditional"] (lower text)) eqn:Hmed; [|done].
    intros _. unfold Grantie.assess_risk.
    destruct (any_in Grantie.high_risk_keywords (lower text)); [done|].
    assert (Hm : any_in Grantie.medium_risk_keywords (lower text) = true).
    { cbn [any_in existsb Grantie.medium_risk_keywords] in Hmed |- *.
      rewrite orb_false_r in Hmed. apply orb_true_iff in Hmed as [-> | ->]; [done|].
      by rewrite orb_true_r. }
    by rewrite Hm.
  - destruct (any_in ["disclaim"; "as-is"; "no warranty"; "limitation of liability"]
                (lower text)); [done|].
    by destruct (any_in ["limited warranty"; "conditional"] (lower text)).
Qed.

Lemma free_fold_check_clause (l : list Analyzer.ClauseDict) :
  ∀ issues,
    fold_left MainFree.check_clause l issues
    = issues ++ flat_map (MainFree.check_clause []) l.
Proof.
  induction l as [|c l IH]; intros issues.
  - simpl. by rewrite app_nil_r.
  - cbn [fold_left flat_map]. rewrite IH, app_assoc. f_equal.
    unfold MainFree.check_clause.
    destruct (contains "disclaim" _ && _); simpl; by rewrite ?app_nil_r.
Qed.

(** X24: the rule-based compliance check reports one issue per flagged
    clause that mentions "disclaim" without "notice": its total_issues is
    the number of notice issues that check_warranty_compliance reports on
    the same clauses; and it always gives exactly one recommendation. *)
Theorem free_compliance_counts_notice_issues (clauses : list Analyzer.ClauseDict) :
  Grantie.total_issues (MainFree.simple_compliance_check clauses)
  = length (List.filter (fun issue => bool_decide (issue = Grantie.notice_issue))
              (Grantie.compliance_issues (Grantie.check_warranty_compliance clauses)))
  ∧ Grantie.total_issues (MainFree.simple_compliance_check clauses)
    = length (Grantie.compliance_issues (MainFree.simple_compliance_check clauses))
  ∧ length (Grantie.recommendations (MainFree.simple_compliance_check clauses)) = 1.
Proof.
  rewrite issues_are_flat_map. unfold MainFree.simple_compliance_check.
  fold Grantie.flagged. fold (warranty_clauses clauses).
  destruct (warranty_clauses clauses) as [|w ws]; [done|].
  cbn [Grantie.total_issues Grantie.compliance_issues Grantie.recommendations].
  split; [|done]. rewrite free_fold_check_clause. cbn [app].
  generalize (w :: ws). intros l. induction l as [|c l IH]; [done|].
  cbn [flat_map]. rewrite List.filter_app, !length_app, IH. f_equal.
  rewrite clause_issues_cases. unfold MainFree.check_clause, clause_text.
  destruct (any_in _ _); by destruct (contains "disclaim" _ && _).
Qed.

End FreeMode.

Lemma free_upload_records_witness :
  let env := Sample.world None
               ["Short clause."; "The seller warrants the goods."]
               (Sample.always "unused") in
  NamedTemporaryFile env ".docx" [] = Ok "/tmp/tmpsample.docx"
  ∧ Analyzer.extract_clauses_from_docx env "/tmp/tmpsample.docx"
    = Ok ["Short clause."; "The seller warrants the goods."]
  ∧ AnalyzerFree.analyze_uploaded_file env "contract.docx" []
    = [free_record "The seller warrants the goods."].
Proof.
  intros env. split; [reflexivity|]. split; [reflexivity|].
  exact (free_upload_records env "contract.docx" [] "/tmp/tmpsample.docx"
           ["Short clause."; "The seller warrants the goods."] eq_refl eq_refl).
Defined.

Lemma free_mode_agrees_with_standard_mode_witness :
  let env := Sample.world (Some "sk-sample")
               ["Short clause."; "The seller warrants the goods."]
               (Sample.always "fine") in
  configured (OPENAI_API_KEY env) = true
  ∧ ∃ standard,
      result_of (Analyzer.analyze_uploaded_file env "contract.docx" []) [] = Ok standard
      ∧ map record_key (AnalyzerFree.analyze_uploaded_file env "contract.docx" [])
        = map record_key
            (List.filter (fun r => (20 <=? PyStr.len (clause_text r))%nat) standard).
Proof.
  intros env. split; [reflexivity|].
  exact (free_mode_agrees_with_standard_mode env "contract.docx" [] [] eq_refl).
Defined.

Lemma free_summary_is_conservative_witness :
  let env := Sample.world None [] (Sample.always "fine") in
  ChatCompletion_create env [] (Grantie.document_request Sample.disclaimer) = Ok "fine"
  ∧ Grantie.risk_level (Grantie.summary (MainFree.simple_warranty_analysis Sample.disclaimer))
    = "High"
  ∧ ∃ w,
      result_of (Grantie.analyze_warranties_and_guarantees env Sample.disclaimer) [] = Ok w
      ∧ Grantie.risk_level (Grantie.summary w) = "High".
Proof.
  intros env. split; [reflexivity|]. split; [reflexivity|].
  destruct (free_summary_is_conservative env [] Sample.disclaimer "fine" eq_refl)
    as (w & Hrun & _ & _ & Hhigh & _).
  exists w. split; [exact Hrun|]. apply Hhigh. reflexivity.
Defined.
